(** * envconfig: usage rendering and the conversion of scalars

    A shallow embedding of [usage.go] (package [envconfig]) together with
    the parts of Go's [reflect], [strconv], [os] and [text/template]
    packages that it calls.  [gatherInfo], which usage.go calls and which
    lives in another file of the package, is a parameter of the usage
    functions.  The rules of the Type Coercer for scalar shapes, whose
    code lives in that other file as well, are modelled from the
    specification of the package.  The definitions come first, the
    properties established for them after. *)

From Stdlib Require Import String Ascii List Bool Arith Lia ZArith.
From Stdlib Require Import DecimalString DecimalPos SpecFloat.
Import ListNotations.
Open Scope string_scope.
Set Warnings "-register-all".

(* ===================================================================== *)
(** ** Package [strconv] *)
(* ===================================================================== *)

Module strconv.

(** [strconv.NumError]: the failing function, its input and the cause. *)
Record NumError := mkNumError { Func : string; Num : string; Err : string }.

Definition ErrSyntax : string := "invalid syntax".

Definition syntaxError (fn str : string) : NumError :=
  mkNumError fn str ErrSyntax.

(** [strconv.ParseBool]: a Go function returning [(bool, error)]; the
    error component is [None] for Go's [nil]. *)
Definition ParseBool (str : string) : bool * option NumError :=
  if existsb (String.eqb str) ["1"; "t"; "T"; "true"; "TRUE"; "True"]
  then (true, None)
  else if existsb (String.eqb str) ["0"; "f"; "F"; "false"; "FALSE"; "False"]
  then (false, None)
  else (false, Some (syntaxError "ParseBool" str)).


Definition ErrRange : string := "value out of range".

Definition rangeError (fn str : string) : NumError :=
  mkNumError fn str ErrRange.

(** The value of a decimal digit; [None] for any other byte. *)
Definition digit (c : ascii) : option N :=
  let n := nat_of_ascii c in
  if Nat.leb 48 n && Nat.leb n 57 then Some (N.of_nat (n - 48)) else None.

(** The loop of [ParseUint] in base 10: [n] is the number read so far,
    [maxVal] the largest number of the bit size.  The bytes are read from
    the left; the first byte that is no digit ends the loop with
    [ErrSyntax], the first digit that takes the number past [maxVal]
    ends it with [maxVal] and [ErrRange]. *)
Fixpoint digits (maxVal n : N) (s : string) : N * option string :=
  match s with
  | EmptyString => (n, None)
  | String c rest =>
      match digit c with
      | None => (0%N, Some ErrSyntax)
      | Some d =>
          let n1 := (n * 10 + d)%N in
          if (maxVal <? n1)%N then (maxVal, Some ErrRange)
          else digits maxVal n1 rest
      end
  end.

(** [strconv.ParseUint(s, 10, bitSize)], for a bit size from 1 to 64. *)
Definition ParseUint (s : string) (bitSize : N) : N * option NumError :=
  match s with
  | EmptyString => (0%N, Some (syntaxError "ParseUint" s))
  | _ =>
      match digits (2 ^ bitSize - 1) 0 s with
      | (n, None) => (n, None)
      | (n, Some cause) => (n, Some (mkNumError "ParseUint" s cause))
      end
  end.

(** The end of [ParseInt]: the unsigned number [un] read behind the
    sign is checked against the range of the bit size and given its
    sign. *)
Definition signed (s : string) (bitSize : N) (neg : bool) (un : N)
  : Z * option NumError :=
  let cutoff := (2 ^ (bitSize - 1))%N in
  if negb neg && (cutoff <=? un)%N
  then ((Z.of_N cutoff - 1)%Z, Some (rangeError "ParseInt" s))
  else if neg && (cutoff <? un)%N
  then ((- Z.of_N cutoff)%Z, Some (rangeError "ParseInt" s))
  else (if neg then (- Z.of_N un)%Z else Z.of_N un, None).

(** [strconv.ParseInt(s, 10, bitSize)], for a bit size from 1 to 64: one
    sign at most, then what [ParseUint] reads; a syntax error of
    [ParseUint] is returned under the name of [ParseInt], a range error
    is replaced by the range check of the signed number. *)
Definition ParseInt (s : string) (bitSize : N) : Z * option NumError :=
  match s with
  | EmptyString => (0%Z, Some (syntaxError "ParseInt" s))
  | String c rest =>
      let neg := Ascii.eqb c "-" in
      let s' := if Ascii.eqb c "+" || neg then rest else s in
      match ParseUint s' bitSize with
      | (un, None) => signed s bitSize neg un
      | (un, Some e) =>
          if String.eqb (Err e) ErrRange then signed s bitSize neg un
          else (0%Z, Some (mkNumError "ParseInt" s (Err e)))
      end
  end.

(** [strconv.FormatUint(n, 10)] and [strconv.FormatInt(i, 10)]: the
    decimal digits without leading zeros, "0" for zero, and a minus sign
    in front of a negative number. *)
Definition FormatUint (n : N) : string :=
  NilZero.string_of_uint (N.to_uint n).

Definition FormatInt (i : Z) : string :=
  NilZero.string_of_int (Z.to_int i).

(** [strconv.FormatFloat(f, 'g', -1, bitSize)] and
    [strconv.ParseFloat(s, bitSize)] turn a binary floating-point number
    into decimal text and back.  How they generate digits and round is
    not spelled out here: a [FloatText] is any such pair, and what is
    asked of it is said where it is used.  A floating-point number is a
    [spec_float]: a signed zero, a signed infinity, NaN, or sign,
    mantissa and binary exponent. *)
Record FloatText := mkFloatText {
  FormatFloat : spec_float -> N -> string;
  ParseFloat : string -> N -> spec_float * option NumError
}.

End strconv.

(* ===================================================================== *)
(** ** Package [reflect] *)
(* ===================================================================== *)

Module reflect.

Inductive Kind :=
| Invalid | Bool
| Int | Int8 | Int16 | Int32 | Int64
| Uint | Uint8 | Uint16 | Uint32 | Uint64 | Uintptr
| Float32 | Float64 | Complex64 | Complex128
| Array | Chan | Func | Interface | Map | Ptr | Slice
| String | Struct | UnsafePointer.

(** The four interface types [usage.go] keeps in package variables
    ([decoderType], [setterType], [textUnmarshalerType],
    [binaryUnmarshalerType]); they are the only arguments ever given to
    [Type.Implements]. *)
Inductive InterfaceType :=
| decoderType | setterType | textUnmarshalerType | binaryUnmarshalerType.

(** A [reflect.Type] is a pointer to a run-time type descriptor, and the
    descriptors of a program form a graph: [Elem] and [Key] lead from a
    descriptor to other descriptors, possibly back to itself (Go accepts
    [type T []T]).  A type is therefore an identifier, and the
    descriptors are read through a table. *)
Definition Type_ := nat.

Record rtype := mkType {
  Kind_ : Kind;
  Name : string;                         (* "" for an unnamed type *)
  String_ : string;                      (* Type.String(), what %+v prints *)
  Elem : Type_;                          (* for Array, Map, Ptr, Slice *)
  Key : Type_;                           (* read for Map *)
  Implements : InterfaceType -> bool;    (* t.Implements(u) *)
  PtrToImplements : InterfaceType -> bool
                                         (* reflect.PtrTo(t).Implements(u) *)
}.

Definition Types := Type_ -> rtype.

(** [reflect.StructTag], seen through [Get]: the tag's key/value pairs in
    the order they are written; [Get] gives the first value of the key
    and the empty string when the key is absent. *)
Definition StructTag := list (string * string).

Fixpoint Get (tag : StructTag) (key : string) : string :=
  match tag with
  | [] => ""
  | (k, v) :: rest => if String.eqb k key then v else Get rest key
  end.

End reflect.

(* ===================================================================== *)
(** ** Package [strings] *)
(* ===================================================================== *)

Module strings.

(** [strings.HasPrefix(s, prefix)]. *)
Definition HasPrefix (s prefix : string) : bool := String.prefix prefix s.

Definition isLower (c : ascii) : bool :=
  Nat.leb 97 (nat_of_ascii c) && Nat.leb (nat_of_ascii c) 122.

Definition upperChar (c : ascii) : ascii :=
  if isLower c then ascii_of_nat (nat_of_ascii c - 32) else c.

(** [strings.ToUpper], on ASCII text. *)
Fixpoint ToUpper (s : string) : string :=
  match s with
  | EmptyString => EmptyString
  | String c rest => String (upperChar c) (ToUpper rest)
  end.

End strings.

(* ===================================================================== *)
(** ** Package [os]: the process environment *)
(* ===================================================================== *)

Module os.

(** The environment: the variables that are set, the latest first. *)
Definition Environ := list (string * string).

Definition Clearenv : Environ := [].

End os.

(* ===================================================================== *)
(** ** Go's [error] values *)
(* ===================================================================== *)

(** The [error] interface is open; these are the errors that the code
    below produces or passes on. *)
Inductive error :=
| NumError (e : strconv.NumError)           (* *strconv.NumError *)
| TemplateParseError (msg : string)         (* from template.Parse *)
| TemplateExecError (fn : string) (cause : error)
                                            (* template.ExecError: a function
                                               called by the template failed *)
| ErrInvalidSpecification.                  (* the package's error for a
                                               [spec] that is no record *)

(* ===================================================================== *)
(** ** Package [text/template] *)
(* ===================================================================== *)

Module template.

(** The fragment of the template language that the two format constants
    of usage.go are written in: literal text, one [{{range .}}] over the
    data, and inside it calls [{{fn .}}] of a registered function on the
    current element. *)
Inductive Node :=
| Text (s : string)
| Call (fn : string).

Inductive TopNode :=
| Top (s : string)
| Range (body : list Node).

Section Exec.

(** The type of the elements ranged over. *)
Variable Dot : Type.

(** A registered function returns a string, or a string and an error.
    It is run with a bound on its recursion depth and gives [None]
    when it has not returned within it. *)
Definition Fn := nat -> Dot -> option (string * option error).
Definition FuncMap := list (string * Fn).

Fixpoint lookupFn (fm : FuncMap) (name : string) : option Fn :=
  match fm with
  | [] => None
  | (n, f) :: rest =>
      if String.eqb n name then Some f else lookupFn rest name
  end.

(** A [*template.Template]: the parse tree and the functions given to
    [Funcs]. *)
Record Template := mkTemplate { Funcs : FuncMap; Tree : list TopNode }.

(** Execution writes to the [io.Writer] as it goes; the writer is the
    text written so far.  A function that returns a non-nil error
    stops the execution, and [Execute] returns that error wrapped in
    a [template.ExecError]; what was written before stays written. *)
Fixpoint execNodes (fm : FuncMap) (fuel : nat) (dot : Dot)
         (nodes : list Node) (out : string)
  : option (string * option error) :=
  match nodes with
  | [] => Some (out, None)
  | Text s :: rest => execNodes fm fuel dot rest (out ++ s)
  | Call fn :: rest =>
      match lookupFn fm fn with
      | None =>
          Some (out, Some (TemplateExecError fn
                             (TemplateParseError "function not defined")))
      | Some f =>
          match f fuel dot with
          | None => None
          | Some (_, Some e) => Some (out, Some (TemplateExecError fn e))
          | Some (s, None) => execNodes fm fuel dot rest (out ++ s)
          end
      end
  end.

Fixpoint execRange (fm : FuncMap) (fuel : nat) (body : list Node)
         (data : list Dot) (out : string)
  : option (string * option error) :=
  match data with
  | [] => Some (out, None)
  | dot :: rest =>
      match execNodes fm fuel dot body out with
      | None => None
      | Some (out', Some e) => Some (out', Some e)
      | Some (out', None) => execRange fm fuel body rest out'
      end
  end.

Fixpoint execTop (fm : FuncMap) (fuel : nat) (tree : list TopNode)
         (data : list Dot) (out : string)
  : option (string * option error) :=
  match tree with
  | [] => Some (out, None)
  | Top s :: rest => execTop fm fuel rest data (out ++ s)
  | Range body :: rest =>
      match execRange fm fuel body data out with
      | None => None
      | Some (out', Some e) => Some (out', Some e)
      | Some (out', None) => execTop fm fuel rest data out'
      end
  end.

(** The method [Execute(wr, data)] of a template. *)
Definition Execute (t : Template) (fuel : nat) (wr : string)
           (data : list Dot) : option (string * option error) :=
  execTop (Funcs t) fuel (Tree t) data wr.

End Exec.

Arguments mkTemplate {Dot}.
Arguments Funcs {Dot}.
Arguments Tree {Dot}.
Arguments lookupFn {Dot}.
Arguments execNodes {Dot}.
Arguments execRange {Dot}.
Arguments execTop {Dot}.
Arguments Execute {Dot}.

End template.

(* ===================================================================== *)
(** ** Package [envconfig]: [usage.go] *)
(* ===================================================================== *)

Module envconfig.

(** Modelled from the spec: [Options] and [varInfo] are declared outside
    usage.go; these are the fields that usage.go reads or writes, plus
    the ones that the field walker of the spec fills in (name, alternate
    names). *)
Record Options := mkOptions { Prefix : string; SplitWords : bool }.

(** Modelled from the spec: the [reflect.Value] kept in a [varInfo], of
    which usage.go reads the type only: the field's type and where the
    field lives inside the record (the indices of the fields passed
    through, outermost first). *)
Record FieldValue := mkFieldValue {
  TypeOf : reflect.Type_;
  Path : list nat
}.

Record varInfo := mkVarInfo {
  VName : string;
  Alt : list string;
  Key : string;
  Field : FieldValue;
  Tags : reflect.StructTag
}.

Section WithTypes.

Variable U : reflect.Types.

Definition kind (t : reflect.Type_) : reflect.Kind := reflect.Kind_ (U t).

(** [implementsInterface] (usage.go:55). *)
Definition implementsInterface (t : reflect.Type_) : bool :=
  reflect.Implements (U t) reflect.decoderType ||
  reflect.PtrToImplements (U t) reflect.decoderType ||
  reflect.Implements (U t) reflect.setterType ||
  reflect.PtrToImplements (U t) reflect.setterType ||
  reflect.Implements (U t) reflect.textUnmarshalerType ||
  reflect.PtrToImplements (U t) reflect.textUnmarshalerType ||
  reflect.Implements (U t) reflect.binaryUnmarshalerType ||
  reflect.PtrToImplements (U t) reflect.binaryUnmarshalerType.

(** The scalar branches of [toTypeDescription] all have one shape: the
    declared name unless it is empty or the built-in one. *)
Definition namedOr (builtin : string -> bool) (generic : string)
                   (t : reflect.Type_) : string :=
  let name := reflect.Name (U t) in
  if negb (String.eqb name "") && negb (builtin name) then name
  else generic.

(** [toTypeDescription] (usage.go:67).  The Go function recurses on
    [t.Elem()] and [t.Key()], which need not be smaller than [t]; the
    recursion depth is bounded by [fuel], and [None] means that the
    call has not returned within that depth. *)
Fixpoint toTypeDescription (fuel : nat) (t : reflect.Type_)
  : option string :=
  match fuel with
  | O => None
  | S fuel' =>
    match kind t with
    | reflect.Array | reflect.Slice =>
        match toTypeDescription fuel' (reflect.Elem (U t)) with
        | Some e => Some ("Comma-separated list of " ++ e)
        | None => None
        end
    | reflect.Map =>
        match toTypeDescription fuel' (reflect.Key (U t)) with
        | Some k =>
            match toTypeDescription fuel' (reflect.Elem (U t)) with
            | Some e =>
                Some ("Comma-separated list of " ++ k ++ ":" ++ e ++ " pairs")
            | None => None
            end
        | None => None
        end
    | reflect.Ptr => toTypeDescription fuel' (reflect.Elem (U t))
    | reflect.Struct =>
        if implementsInterface t && negb (String.eqb (reflect.Name (U t)) "")
        then Some (reflect.Name (U t))
        else Some ""
    | reflect.String =>
        Some (namedOr (fun n => String.eqb n "string") "String" t)
    | reflect.Bool =>
        Some (namedOr (fun n => String.eqb n "bool") "True or False" t)
    | reflect.Int | reflect.Int8 | reflect.Int16 | reflect.Int32
    | reflect.Int64 =>
        Some (namedOr (fun n => strings.HasPrefix n "int") "Integer" t)
    | reflect.Uint | reflect.Uint8 | reflect.Uint16 | reflect.Uint32
    | reflect.Uint64 =>
        Some (namedOr (fun n => strings.HasPrefix n "uint")
                      "Unsigned Integer" t)
    | reflect.Float32 | reflect.Float64 =>
        Some (namedOr (fun n => strings.HasPrefix n "float") "Float" t)
    | _ => Some (reflect.String_ (U t))
    end
  end.

(** The template functions that [UsagefX] registers (usage.go:164). *)
Definition usage_key (v : varInfo) : string := Key v.
Definition usage_description (v : varInfo) : string :=
  reflect.Get (Tags v) "desc".
Definition usage_type (fuel : nat) (v : varInfo) : option string :=
  toTypeDescription fuel (TypeOf (Field v)).
Definition usage_default (v : varInfo) : string :=
  reflect.Get (Tags v) "default".

Definition usage_required (v : varInfo) : string * option error :=
  let req := reflect.Get (Tags v) "required" in
  if negb (String.eqb req "") then
    match strconv.ParseBool req with
    | (_, Some err) => ("", Some (NumError err))
    | (reqB, None) => (if reqB then "true" else req, None)
    end
  else (req, None).

End WithTypes.

(** The two format constants of usage.go:19. *)
Definition DefaultListFormat : string :=
"This application is configured via the environment. The following environment
variables can be used:
{{range .}}
{{usage_key .}}
  [description] {{usage_description .}}
  [type]        {{usage_type .}}
  [default]     {{usage_default .}}
  [required]    {{usage_required .}}{{end}}
".

Definition DefaultTableFormat : string :=
"This application is configured via the environment. The following environment
variables can be used:

KEY	TYPE	DEFAULT	REQUIRED	DESCRIPTION
{{range .}}{{usage_key .}}	{{usage_type .}}	{{usage_default .}}	{{usage_required .}}	{{usage_description .}}
{{end}}".

(** [UsageOptions] (usage.go:47).  [Out] is the text the writer holds;
    [Template] is [None] for a nil pointer. *)
Module UsageOptions.
Record t := mk {
  Prefix : string;
  SplitWords : bool;
  Out : string;
  Format : string;
  Template : option (template.Template varInfo)
}.
Definition withTemplate (o : t) (tmpl : template.Template varInfo) : t :=
  mk (Prefix o) (SplitWords o) (Out o) (Format o) (Some tmpl).
End UsageOptions.

(** Modelled from the spec: the process state that a call of the package
    runs in, the key/value source (section 6) and the keys that have
    been asked of it. *)
Record World := mkWorld { environ : os.Environ; consulted : list string }.

Section Engine.

(** Parameters: what usage.go calls and the package declares in another
    file.  [Spec] is what the argument [spec interface{}] holds, the
    caller's record.  [gatherInfo] (called at usage.go:202) is given
    the record and the options ([Prefix] and [SplitWords]) and returns
    the descriptors or an error; it receives the caller's record by
    reference and runs in the process, so its result holds the world and
    the record after the call as well.  Nothing below depends on what
    [gatherInfo] does. *)
Variable Spec : Type.
Variable gatherInfo :
  World -> Spec -> Options -> World * Spec * (list varInfo + error).

(* ----------------------------------------------------------------- *)
(** *** The usage functions of usage.go *)
(* ----------------------------------------------------------------- *)

Variable U : reflect.Types.

(** [template.New(name).Funcs(fm).Parse(text)]: the parse tree of a
    format, or the parser's error. *)
Variable Parse : string -> list template.TopNode + error.

(** What a [tabwriter.Writer] sends on when it is flushed, for the
    text written to it. *)
Variable tabwriter : string -> string.

(** How a call ends: it returns its [error] result, or it panics. *)
Inductive Outcome :=
| Returns (err : option error)
| Panics.

(** A call of one of the usage functions: the world, the caller's
    record and the writer's text after the call, and how the call
    ended. *)
Record UsageResult := mkResult {
  worldAfter : World;
  specAfter : Spec;
  written : string;
  outcome : Outcome
}.

(** The function map of [UsagefX] (usage.go:164). *)
Definition functions : template.FuncMap varInfo :=
  [ ("usage_key", fun _ v => Some (usage_key v, None));
    ("usage_description", fun _ v => Some (usage_description v, None));
    ("usage_type",
      fun fuel v => match usage_type U fuel v with
                    | Some d => Some (d, None)
                    | None => None
                    end);
    ("usage_default", fun _ v => Some (usage_default v, None));
    ("usage_required", fun _ v => Some (usage_required v)) ].

(** [UsagetX] (usage.go:196). *)
Definition UsagetX (w : World) (fuel : nat) (spec : Spec)
           (usageOptions : UsageOptions.t) : option UsageResult :=
  let options :=
    {| Prefix := UsageOptions.Prefix usageOptions;
       SplitWords := UsageOptions.SplitWords usageOptions |} in
  match gatherInfo w spec options with
  | (w', v, inr err) =>
      Some (mkResult w' v (UsageOptions.Out usageOptions)
                     (Returns (Some err)))
  | (w', v, inl infos) =>
      match UsageOptions.Template usageOptions with
      | None => Some (mkResult w' v (UsageOptions.Out usageOptions) Panics)
      | Some tmpl =>
          match template.Execute tmpl fuel
                  (UsageOptions.Out usageOptions) infos with
          | None => None
          | Some (out, err) => Some (mkResult w' v out (Returns err))
          end
      end
  end.

(** [UsagefX] (usage.go:162). *)
Definition UsagefX (w : World) (fuel : nat) (spec : Spec)
           (usageOptions : UsageOptions.t) : option UsageResult :=
  match UsageOptions.Template usageOptions with
  | None =>
      match Parse (UsageOptions.Format usageOptions) with
      | inr err =>
          Some (mkResult w spec (UsageOptions.Out usageOptions)
                         (Returns (Some err)))
      | inl tree =>
          UsagetX w fuel spec
            (UsageOptions.withTemplate usageOptions
               (template.mkTemplate functions tree))
      end
  | Some _ => UsagetX w fuel spec usageOptions
  end.

(** [Usagef] (usage.go:124) and [Usaget] (usage.go:135). *)
Definition Usagef (w : World) (fuel : nat) (prefix : string) (spec : Spec)
           (out : string) (format : string) : option UsageResult :=
  UsagefX w fuel spec
    (UsageOptions.mk prefix false out format None).

Definition Usaget (w : World) (fuel : nat) (prefix : string) (spec : Spec)
           (out : string) (tmpl : option (template.Template varInfo))
  : option UsageResult :=
  UsagetX w fuel spec
    (UsageOptions.mk prefix false out "" tmpl).

(** [UsageX] (usage.go:145): the table goes through a tab writer,
    which is flushed to standard output ([stdout] is what standard
    output holds before the call, [written] what it holds after). *)
Definition UsageX (w : World) (fuel : nat) (stdout : string) (spec : Spec)
           (options : Options) : option UsageResult :=
  match UsagefX w fuel spec
          (UsageOptions.mk (Prefix options) (SplitWords options) ""
                           DefaultTableFormat None) with
  | None => None
  | Some r =>
      Some (mkResult (worldAfter r) (specAfter r)
                     (stdout ++ tabwriter (written r)) (outcome r))
  end.

(** [Usage] (usage.go:119). *)
Definition Usage (w : World) (fuel : nat) (stdout : string)
           (prefix : string) (spec : Spec) : option UsageResult :=
  UsageX w fuel stdout spec (mkOptions prefix false).

End Engine.

End envconfig.

Arguments envconfig.mkResult {Spec}.
Arguments envconfig.worldAfter {Spec}.
Arguments envconfig.specAfter {Spec}.
Arguments envconfig.written {Spec}.
Arguments envconfig.outcome {Spec}.
Arguments envconfig.UsagetX {Spec}.
Arguments envconfig.UsagefX {Spec}.
Arguments envconfig.Usagef {Spec}.
Arguments envconfig.Usaget {Spec}.
Arguments envconfig.UsageX {Spec}.
Arguments envconfig.Usage {Spec}.

(* ===================================================================== *)
(** * Type descriptions *)
(* ===================================================================== *)

Section TypeDescription.

Variable U : reflect.Types.

(** The type, or its pointer form, implements one of the four
    capability interfaces. *)
Definition implementsAny (t : reflect.Type_) : Prop :=
  exists i, reflect.Implements (U t) i = true
            \/ reflect.PtrToImplements (U t) i = true.

(** The scalar kinds that [toTypeDescription] names. *)
Inductive Scalar := SString | SBool | SInteger | SUnsigned | SFloat.

Definition scalarOf (k : reflect.Kind) : option Scalar :=
  match k with
  | reflect.String => Some SString
  | reflect.Bool => Some SBool
  | reflect.Int | reflect.Int8 | reflect.Int16 | reflect.Int32
  | reflect.Int64 => Some SInteger
  | reflect.Uint | reflect.Uint8 | reflect.Uint16 | reflect.Uint32
  | reflect.Uint64 => Some SUnsigned
  | reflect.Float32 | reflect.Float64 => Some SFloat
  | _ => None
  end.

(** A declared name that counts as the built-in one of its kind. *)
Definition builtinName (c : Scalar) (n : string) : Prop :=
  match c with
  | SString => n = "string"
  | SBool => n = "bool"
  | SInteger => exists rest, n = "int" ++ rest
  | SUnsigned => exists rest, n = "uint" ++ rest
  | SFloat => exists rest, n = "float" ++ rest
  end.

Definition generic (c : Scalar) : string :=
  match c with
  | SString => "String"
  | SBool => "True or False"
  | SInteger => "Integer"
  | SUnsigned => "Unsigned Integer"
  | SFloat => "Float"
  end.

(** The kinds whose description is built from other types. *)
Definition composite (k : reflect.Kind) : bool :=
  match k with
  | reflect.Array | reflect.Slice | reflect.Map | reflect.Ptr => true
  | _ => false
  end.

(** The description of a type, case by case, as the specification of
    [toTypeDescription] words it. *)
Inductive describes : reflect.Type_ -> string -> Prop :=
| describes_pointer t d :
    envconfig.kind U t = reflect.Ptr ->
    describes (reflect.Elem (U t)) d ->
    describes t d
| describes_list t e :
    envconfig.kind U t = reflect.Array
    \/ envconfig.kind U t = reflect.Slice ->
    describes (reflect.Elem (U t)) e ->
    describes t ("Comma-separated list of " ++ e)
| describes_map t k e :
    envconfig.kind U t = reflect.Map ->
    describes (reflect.Key (U t)) k ->
    describes (reflect.Elem (U t)) e ->
    describes t ("Comma-separated list of " ++ k ++ ":" ++ e ++ " pairs")
| describes_capable_struct t :
    envconfig.kind U t = reflect.Struct ->
    reflect.Name (U t) <> "" -> implementsAny t ->
    describes t (reflect.Name (U t))
| describes_plain_struct t :
    envconfig.kind U t = reflect.Struct ->
    reflect.Name (U t) = "" \/ ~ implementsAny t ->
    describes t ""
| describes_named_scalar t c :
    scalarOf (envconfig.kind U t) = Some c ->
    reflect.Name (U t) <> "" -> ~ builtinName c (reflect.Name (U t)) ->
    describes t (reflect.Name (U t))
| describes_builtin_scalar t c :
    scalarOf (envconfig.kind U t) = Some c ->
    reflect.Name (U t) = "" \/ builtinName c (reflect.Name (U t)) ->
    describes t (generic c)
| describes_other t :
    composite (envconfig.kind U t) = false ->
    envconfig.kind U t <> reflect.Struct ->
    scalarOf (envconfig.kind U t) = None ->
    describes t (reflect.String_ (U t)).

(** A type whose description needs finitely many steps through [Elem]
    and [Key]. *)
Inductive finite_nesting : reflect.Type_ -> Prop :=
| finite_simple t :
    composite (envconfig.kind U t) = false -> finite_nesting t
| finite_elem t :
    envconfig.kind U t = reflect.Array \/ envconfig.kind U t = reflect.Slice
    \/ envconfig.kind U t = reflect.Ptr ->
    finite_nesting (reflect.Elem (U t)) -> finite_nesting t
| finite_map t :
    envconfig.kind U t = reflect.Map ->
    finite_nesting (reflect.Key (U t)) ->
    finite_nesting (reflect.Elem (U t)) -> finite_nesting t.

End TypeDescription.

(* ===================================================================== *)
(** * The usage templates *)
(* ===================================================================== *)

(** The parse trees of the two format constants: what the template parser
    makes of [DefaultTableFormat] and of [DefaultListFormat]. *)
Definition tab : string := String (ascii_of_nat 9) EmptyString.
Definition newline : string := String (ascii_of_nat 10) EmptyString.

Definition tableRow : list template.Node :=
  [ template.Call "usage_key"; template.Text tab;
    template.Call "usage_type"; template.Text tab;
    template.Call "usage_default"; template.Text tab;
    template.Call "usage_required"; template.Text tab;
    template.Call "usage_description"; template.Text newline ].

Definition DefaultTableTree : list template.TopNode :=
  [ template.Top
      ("This application is configured via the environment. "
       ++ "The following environment" ++ newline
       ++ "variables can be used:" ++ newline ++ newline
       ++ "KEY" ++ tab ++ "TYPE" ++ tab ++ "DEFAULT" ++ tab ++ "REQUIRED"
       ++ tab ++ "DESCRIPTION" ++ newline);
    template.Range tableRow ].

Definition listRow : list template.Node :=
  [ template.Text newline; template.Call "usage_key";
    template.Text (newline ++ "  [description] ");
    template.Call "usage_description";
    template.Text (newline ++ "  [type]        ");
    template.Call "usage_type";
    template.Text (newline ++ "  [default]     ");
    template.Call "usage_default";
    template.Text (newline ++ "  [required]    ");
    template.Call "usage_required" ].

Definition DefaultListTree : list template.TopNode :=
  [ template.Top
      ("This application is configured via the environment. "
       ++ "The following environment" ++ newline
       ++ "variables can be used:" ++ newline);
    template.Range listRow;
    template.Top newline ].

(** The text of a parse tree, written back in template syntax. *)
Definition unparseNode (n : template.Node) : string :=
  match n with
  | template.Text s => s
  | template.Call fn => "{{" ++ fn ++ " .}}"
  end.

Definition unparseTop (n : template.TopNode) : string :=
  match n with
  | template.Top s => s
  | template.Range body =>
      "{{range .}}" ++ String.concat "" (map unparseNode body) ++ "{{end}}"
  end.

Definition unparse (tree : list template.TopNode) : string :=
  String.concat "" (map unparseTop tree).

(* ===================================================================== *)
(** * A program's types and the record of the test file *)
(* ===================================================================== *)

Definition noMethods : reflect.InterfaceType -> bool := fun _ => false.

Definition binaryUnmarshaler (i : reflect.InterfaceType) : bool :=
  match i with
  | reflect.binaryUnmarshalerType => true
  | _ => false
  end.

Definition tString : reflect.Type_ := 0.
Definition tInt : reflect.Type_ := 1.
Definition tMapStringInt : reflect.Type_ := 2.
Definition tURL : reflect.Type_ := 3.
Definition tPtrURL : reflect.Type_ := 4.
Definition tInterval : reflect.Type_ := 5.
Definition tCelsius : reflect.Type_ := 6.
Definition tSelfSlice : reflect.Type_ := 7.

(** The type descriptors of a small program:
    [string], [int], [map[string]int], [url.URL] and [*url.URL] (whose
    pointer form has [UnmarshalBinary]), [type interval int],
    [type Celsius float64], and [type T []T]. *)
Definition goTypes : reflect.Types := fun t =>
  match t with
  | 0 => reflect.mkType reflect.String "string" "string" 0 0
                        noMethods noMethods
  | 1 => reflect.mkType reflect.Int "int" "int" 0 0 noMethods noMethods
  | 2 => reflect.mkType reflect.Map "" "map[string]int" tInt tString
                        noMethods noMethods
  | 3 => reflect.mkType reflect.Struct "URL" "url.URL" 0 0
                        noMethods binaryUnmarshaler
  | 4 => reflect.mkType reflect.Ptr "" "*url.URL" tURL 0
                        binaryUnmarshaler binaryUnmarshaler
  | 5 => reflect.mkType reflect.Int "interval" "main.interval" 0 0
                        noMethods noMethods
  | 6 => reflect.mkType reflect.Float64 "Celsius" "main.Celsius" 0 0
                        noMethods noMethods
  | 7 => reflect.mkType reflect.Slice "T" "main.T" tSelfSlice 0
                        noMethods noMethods
  | _ => reflect.mkType reflect.Func "" "func()" 0 0 noMethods noMethods
  end.

(** The records of the examples: what a usage function needs of a
    record whose fields are all leaves, the declarations of its fields
    (name, type and tags), not their values. *)
Definition GoRecord := list (string * reflect.Type_ * reflect.StructTag).

(** Modelled from the spec: an instance of the parameter [gatherInfo]
    for the examples, on such records only: one descriptor per field, in
    declaration order, its key the prefix and the field's name joined by
    an underscore and uppercased (section 4.1; the test file sets
    ENV_CONFIG_URLVALUE for the prefix env_config and the field
    URLValue); the world is handed back as it came. *)
Fixpoint flatInfos (prefix : string) (i : nat) (fields : GoRecord)
  : list envconfig.varInfo :=
  match fields with
  | [] => []
  | (name, t, tags) :: rest =>
      envconfig.mkVarInfo name [] (strings.ToUpper (prefix ++ "_" ++ name))
                          (envconfig.mkFieldValue t [i]) tags
      :: flatInfos prefix (S i) rest
  end.

Definition gatherFlat (w : envconfig.World) (spec : GoRecord)
           (options : envconfig.Options)
  : envconfig.World * GoRecord * (list envconfig.varInfo + error) :=
  (w, spec, inl (flatInfos (envconfig.Prefix options) 0 spec)).

(** [SpecWithURL] (envconfig_1.8_test.go:12). *)
Definition SpecWithURL : GoRecord :=
  [ ("URLValue", tURL, []); ("URLPointer", tPtrURL, []) ].

(** One step of [toTypeDescription], with the recursive calls as a
    parameter: the textual body of the Go function. *)
Definition descBody (U : reflect.Types)
           (rec : reflect.Type_ -> option string) (t : reflect.Type_)
  : option string :=
  match envconfig.kind U t with
  | reflect.Array | reflect.Slice =>
      match rec (reflect.Elem (U t)) with
      | Some e => Some ("Comma-separated list of " ++ e)
      | None => None
      end
  | reflect.Map =>
      match rec (reflect.Key (U t)) with
      | Some k =>
          match rec (reflect.Elem (U t)) with
          | Some e =>
              Some ("Comma-separated list of " ++ k ++ ":" ++ e ++ " pairs")
          | None => None
          end
      | None => None
      end
  | reflect.Ptr => rec (reflect.Elem (U t))
  | _ => envconfig.toTypeDescription U 1 t
  end.

(** The literals that [strconv.ParseBool] reads as false. *)
Definition falseLiterals : list string :=
  ["0"; "f"; "F"; "false"; "FALSE"; "False"].

(** A descriptor as the walker builds it for a field without tags. *)
Definition descriptor (name key : string) (t : reflect.Type_)
           (tags : reflect.StructTag) : envconfig.varInfo :=
  envconfig.mkVarInfo name [] key (envconfig.mkFieldValue t []) tags.

(** The usage options of a call that renders the table through the
    registered functions. *)
Definition tableOptions (prefix : string) : envconfig.UsageOptions.t :=
  envconfig.UsageOptions.mk prefix false "" ""
    (Some (template.mkTemplate (envconfig.functions goTypes)
                               DefaultTableTree)).

(** A world whose environment is empty and has not been asked yet. *)
Definition emptyWorld : envconfig.World := envconfig.mkWorld os.Clearenv [].

(** A parser that knows the two default formats only. *)
Definition parseDefaults (format : string)
  : list template.TopNode + error :=
  if String.eqb format envconfig.DefaultTableFormat
  then inl DefaultTableTree
  else if String.eqb format envconfig.DefaultListFormat
  then inl DefaultListTree
  else inr (TemplateParseError "unexpected format").

(** The descriptors of [SpecWithURL] under the prefix of the test file. *)
Definition infosOfSpecWithURL : list envconfig.varInfo :=
  [ envconfig.mkVarInfo "URLValue" [] "ENV_CONFIG_URLVALUE"
      (envconfig.mkFieldValue tURL [0]) [];
    envconfig.mkVarInfo "URLPointer" [] "ENV_CONFIG_URLPOINTER"
      (envconfig.mkFieldValue tPtrURL [1]) [] ].

(* ===================================================================== *)
(** * The text that the default formats produce *)
(* ===================================================================== *)

(** The literal text in front of the rows of the table and of the list. *)
Definition tableHeader : string :=
  "This application is configured via the environment. "
  ++ "The following environment" ++ newline
  ++ "variables can be used:" ++ newline ++ newline
  ++ "KEY" ++ tab ++ "TYPE" ++ tab ++ "DEFAULT" ++ tab ++ "REQUIRED"
  ++ tab ++ "DESCRIPTION" ++ newline.

Definition listHeader : string :=
  "This application is configured via the environment. "
  ++ "The following environment" ++ newline
  ++ "variables can be used:" ++ newline.

(** The templates that [UsagefX] builds from the two format constants. *)
Definition tableTemplate (U : reflect.Types)
  : template.Template envconfig.varInfo :=
  template.mkTemplate (envconfig.functions U) DefaultTableTree.

Definition listTemplate (U : reflect.Types)
  : template.Template envconfig.varInfo :=
  template.mkTemplate (envconfig.functions U) DefaultListTree.

(** The description of a descriptor's type as [usage_type] gives it
    within a recursion depth; empty when it has not returned. *)
Definition typeText (U : reflect.Types) (fuel : nat)
           (v : envconfig.varInfo) : string :=
  match envconfig.usage_type U fuel v with
  | Some d => d
  | None => ""
  end.

(** One line of the table, and the part of it in front of the
    [required] column. *)
Definition tableLineStart (U : reflect.Types) (fuel : nat)
           (v : envconfig.varInfo) : string :=
  envconfig.usage_key v ++ tab ++ typeText U fuel v ++ tab
  ++ envconfig.usage_default v ++ tab.

Definition tableLine (U : reflect.Types) (fuel : nat)
           (v : envconfig.varInfo) : string :=
  tableLineStart U fuel v
  ++ fst (envconfig.usage_required v) ++ tab
  ++ envconfig.usage_description v ++ newline.

(** One entry of the list, and the part of it in front of the value of
    [required]. *)
Definition listEntryStart (U : reflect.Types) (fuel : nat)
           (v : envconfig.varInfo) : string :=
  newline ++ envconfig.usage_key v
  ++ newline ++ "  [description] " ++ envconfig.usage_description v
  ++ newline ++ "  [type]        " ++ typeText U fuel v
  ++ newline ++ "  [default]     " ++ envconfig.usage_default v
  ++ newline ++ "  [required]    ".

Definition listEntry (U : reflect.Types) (fuel : nat)
           (v : envconfig.varInfo) : string :=
  listEntryStart U fuel v ++ fst (envconfig.usage_required v).

(** The lines of all descriptors, one after the other. *)
Fixpoint rows (line : envconfig.varInfo -> string)
         (infos : list envconfig.varInfo) : string :=
  match infos with
  | [] => ""
  | v :: rest => line v ++ rows line rest
  end.

(** The type of a descriptor is described within the recursion depth. *)
Definition typeDescribed (U : reflect.Types) (fuel : nat)
           (v : envconfig.varInfo) : Prop :=
  envconfig.usage_type U fuel v <> None.

(** The [required] tag of a descriptor is empty or a boolean literal. *)
Definition validRequired (v : envconfig.varInfo) : Prop :=
  snd (envconfig.usage_required v) = None.

(** The twelve literals that [strconv.ParseBool] accepts. *)
Definition boolLiterals : list string :=
  ["1"; "t"; "T"; "true"; "TRUE"; "True";
   "0"; "f"; "F"; "false"; "FALSE"; "False"].

(** [derefs U p t]: [p] is [t], or a pointer type that leads to [t]
    through pointer types only. *)
Inductive derefs (U : reflect.Types)
  : reflect.Type_ -> reflect.Type_ -> Prop :=
| derefs_here t : derefs U t t
| derefs_pointer p t :
    envconfig.kind U p = reflect.Ptr ->
    derefs U (reflect.Elem (U p)) t ->
    derefs U p t.

(** Descriptors used as examples: a port with default, valid [required]
    tag and description; a host without tags; a mode whose [required] tag
    is no boolean; a field of the type [type T []T]. *)
Definition portDescriptor : envconfig.varInfo :=
  descriptor "Port" "APP_PORT" tInt
    [("default", "8080"); ("required", "1"); ("desc", "listen port")].

Definition hostDescriptor : envconfig.varInfo :=
  descriptor "Host" "APP_HOST" tString [].

Definition badDescriptor : envconfig.varInfo :=
  descriptor "Mode" "APP_MODE" tString
    [("default", "fast"); ("required", "maybe")].

Definition selfSliceDescriptor : envconfig.varInfo :=
  descriptor "Tree" "APP_TREE" tSelfSlice [].

(** A record with one plain field and one field whose [required] tag is
    no boolean: [struct { Host string; Mode string `required:"maybe"` }]. *)
Definition SpecWithMode : GoRecord :=
  [ ("Host", tString, []); ("Mode", tString, [("required", "maybe")]) ].

(** A tab writer that passes the text on as it is. *)
Definition plainTabwriter (text : string) : string := text.

(** [readsAlike a b]: two type descriptors agree on what
    [toTypeDescription] reads of a descriptor of their kind: kind, element
    and key always; for a struct the name and the methods; for a scalar
    the name; for a kind without case of its own the text of the type;
    for an array, slice, map or pointer nothing more. *)
Definition readsAlike (a b : reflect.rtype) : Prop :=
  reflect.Kind_ a = reflect.Kind_ b
  /\ reflect.Elem a = reflect.Elem b
  /\ reflect.Key a = reflect.Key b
  /\ if composite (reflect.Kind_ a) then True
     else match reflect.Kind_ a with
          | reflect.Struct =>
              reflect.Name a = reflect.Name b
              /\ (forall i, reflect.Implements a i = reflect.Implements b i)
              /\ (forall i, reflect.PtrToImplements a i
                            = reflect.PtrToImplements b i)
          | k => match scalarOf k with
                 | Some _ => reflect.Name a = reflect.Name b
                 | None => reflect.String_ a = reflect.String_ b
                 end
          end.

(** The types of [goTypes] with the map type declared as
    [type Ports map[string]int] and given a [Decode] method, and with
    [type interval int] given a [Set] method. *)
Definition goTypesWithMethods : reflect.Types := fun t =>
  match t with
  | 2 => reflect.mkType reflect.Map "Ports" "main.Ports" tInt tString
                        (fun _ => true) (fun _ => true)
  | 5 => reflect.mkType reflect.Int "interval" "main.interval" 0 0
                        (fun _ => true) (fun _ => true)
  | _ => goTypes t
  end.

(* ===================================================================== *)
(** * The Type Coercer on scalar shapes *)
(* ===================================================================== *)

(** Modelled from the spec: the widths of Go's integer types, [WSize]
    being the width of [int] and [uint], and of its floating-point
    types. *)
Inductive Width := W8 | W16 | W32 | W64 | WSize.
Inductive FloatWidth := F32 | F64.

(** Modelled from the spec: the scalar shapes of the Type Coercer
    (section 4.4): boolean, signed and unsigned integer of each width,
    floating point of each width, string. *)
Inductive ScalarShape :=
| ShBool
| ShInt (w : Width)
| ShUint (w : Width)
| ShFloat (w : FloatWidth)
| ShString.

(** Modelled from the spec: the shape of a field by the kind of its
    type; [None] for the kinds that are no scalars. *)
Definition shapeOf (k : reflect.Kind) : option ScalarShape :=
  match k with
  | reflect.Bool => Some ShBool
  | reflect.Int => Some (ShInt WSize)
  | reflect.Int8 => Some (ShInt W8)
  | reflect.Int16 => Some (ShInt W16)
  | reflect.Int32 => Some (ShInt W32)
  | reflect.Int64 => Some (ShInt W64)
  | reflect.Uint => Some (ShUint WSize)
  | reflect.Uint8 => Some (ShUint W8)
  | reflect.Uint16 => Some (ShUint W16)
  | reflect.Uint32 => Some (ShUint W32)
  | reflect.Uint64 => Some (ShUint W64)
  | reflect.Float32 => Some (ShFloat F32)
  | reflect.Float64 => Some (ShFloat F64)
  | reflect.String => Some ShString
  | _ => None
  end.

(** Modelled from the spec: the typed value that a scalar field holds. *)
Inductive ScalarValue :=
| VBool (b : bool)
| VInt (i : Z)
| VUint (u : N)
| VFloat (x : spec_float)
| VString (s : string).

(** The bit size of a floating-point type, and the precision and the
    exponent bound of its format (IEEE 754 binary32 and binary64). *)
Definition floatBits (w : FloatWidth) : N :=
  match w with F32 => 32 | F64 => 64 end%N.





Section TypeCoercer.

(** Parameters: the decimal text of floats, and the bit size of [int]
    and [uint] ([strconv.IntSize], 32 or 64 by platform). *)
Variable ft : strconv.FloatText.
Variable intSize : N.

Definition bits (w : Width) : N :=
  match w with
  | W8 => 8 | W16 => 16 | W32 => 32 | W64 => 64
  | WSize => intSize
  end%N.



(** Modelled from the spec: the result of a parser as a coercion
    outcome: the typed value, or the conversion error. *)
Definition converted {A : Type} (wrap : A -> ScalarValue)
           (r : A * option strconv.NumError) : ScalarValue + error :=
  match r with
  | (x, None) => inl (wrap x)
  | (_, Some e) => inr (NumError e)
  end.

(** Modelled from the spec: the Type Coercer on scalar shapes (section
    4.4): boolean, integer and floating point are parsed by the
    canonical grammar of the shape, at the width of the shape; a string
    is used verbatim. *)
Definition coerce (sh : ScalarShape) (raw : string) : ScalarValue + error :=
  match sh with
  | ShBool => converted VBool (strconv.ParseBool raw)
  | ShInt w => converted VInt (strconv.ParseInt raw (bits w))
  | ShUint w => converted VUint (strconv.ParseUint raw (bits w))
  | ShFloat w =>
      converted VFloat (strconv.ParseFloat ft raw (floatBits w))
  | ShString => inl (VString raw)
  end.



End TypeCoercer.

(** A float text for the examples: the format 'b' of [FormatFloat],
    which writes the mantissa and the binary exponent in decimal
    ("6755399441055744p-52" for 1.5) and needs no rounding, with a parser
    for that format. *)
Fixpoint cut (sep : ascii) (s : string) : option (string * string) :=
  match s with
  | EmptyString => None
  | String c rest =>
      if Ascii.eqb c sep then Some ("", rest)
      else match cut sep rest with
           | Some (before, after) => Some (String c before, after)
           | None => None
           end
  end.

Definition formatB (x : spec_float) (bitSize : N) : string :=
  let sign (s : bool) := if s then "-" else "" in
  match x with
  | S754_nan => "NaN"
  | S754_infinity s => if s then "-Inf" else "+Inf"
  | S754_zero s => sign s ++ "0p+0"
  | S754_finite s m e =>
      sign s ++ strconv.FormatUint (N.pos m) ++ "p"
      ++ (if (e <? 0)%Z then "" else "+") ++ strconv.FormatInt e
  end.

Definition parseB (s : string) (bitSize : N)
  : spec_float * option strconv.NumError :=
  let fail := (S754_zero false,
               Some (strconv.syntaxError "ParseFloat" s)) in
  if String.eqb s "NaN" then (S754_nan, None)
  else if String.eqb s "+Inf" then (S754_infinity false, None)
  else if String.eqb s "-Inf" then (S754_infinity true, None)
  else
    let neg := String.prefix "-" s in
    let body := if neg then String.substring 1 (String.length s - 1) s
                else s in
    match cut "p" body with
    | None => fail
    | Some (mantissa, exponent) =>
        match strconv.ParseUint mantissa 64, strconv.ParseInt exponent 64
        with
        | (m, None), (e, None) =>
            (match m with
             | N0 => S754_zero neg
             | N.pos p => S754_finite neg p e
             end, None)
        | _, _ => fail
        end
    end.

Definition binaryFloatText : strconv.FloatText :=
  strconv.mkFloatText formatB parseB.


(* ===================================================================== *)
(** * Properties of [usage.go] *)
(* ===================================================================== *)

Lemma append_assoc (a b c : string) : (a ++ b) ++ c = a ++ (b ++ c).
Proof.
  induction a as [| x a IH]; [reflexivity|].
  cbn [append]. now rewrite IH.
Qed.

Lemma prefix_append (p s : string) :
  String.prefix p s = true <-> exists rest, s = p ++ rest.
Proof.
  revert s. induction p as [| c p IH]; intros s.
  - destruct s; simpl; split; eauto.
  - destruct s as [| d s]; simpl.
    + split; [discriminate | intros [r H]; discriminate].
    + destruct (ascii_dec c d) as [-> | N].
      * rewrite IH. split; intros [r H]; exists r; congruence.
      * split; [discriminate | intros [r H]; congruence].
Qed.

Section TypeDescriptionFacts.

Variable U : reflect.Types.

Lemma implementsInterface_iff t :
  envconfig.implementsInterface U t = true <-> implementsAny U t.
Proof.
  unfold envconfig.implementsInterface, implementsAny. split.
  - intros H.
    repeat (apply orb_true_iff in H; destruct H as [H | H]); eauto.
  - intros [i [H | H]]; destruct i; rewrite H;
      repeat rewrite orb_true_r; reflexivity.
Qed.

Lemma namedOr_describes t c (b : string -> bool) :
  scalarOf (envconfig.kind U t) = Some c ->
  (forall n, b n = true <-> builtinName c n) ->
  describes U t (envconfig.namedOr U b (generic c) t).
Proof.
  intros K B. unfold envconfig.namedOr.
  destruct (String.eqb_spec (reflect.Name (U t)) "") as [E | E]; simpl.
  - eapply describes_builtin_scalar; eauto.
  - destruct (b (reflect.Name (U t))) eqn:Bn; simpl.
    + eapply describes_builtin_scalar; eauto. right. now apply B.
    + eapply describes_named_scalar; eauto.
      intros H. apply B in H. congruence.
Qed.

Lemma toTypeDescription_S n t :
  envconfig.toTypeDescription U (S n) t
  = descBody U (envconfig.toTypeDescription U n) t.
Proof.
  unfold descBody. cbn [envconfig.toTypeDescription].
  destruct (envconfig.kind U t); reflexivity.
Qed.

(** The branches without a recursive call. *)
Lemma toTypeDescription_1 t d :
  envconfig.toTypeDescription U 1 t = Some d ->
  composite (envconfig.kind U t) = false -> describes U t d.
Proof.
  cbn [envconfig.toTypeDescription]. intros H C.
  destruct (envconfig.kind U t) eqn:K; try discriminate C;
    try (injection H as <-; apply describes_other; rewrite ?K;
         [reflexivity | discriminate | reflexivity]).
  all: try (injection H as <-;
            eapply namedOr_describes with (c := SInteger);
            [rewrite K; reflexivity | intros; apply prefix_append]).
  all: try (injection H as <-;
            eapply namedOr_describes with (c := SUnsigned);
            [rewrite K; reflexivity | intros; apply prefix_append]).
  all: try (injection H as <-;
            eapply namedOr_describes with (c := SFloat);
            [rewrite K; reflexivity | intros; apply prefix_append]).
  - injection H as <-.
    apply namedOr_describes with (c := SBool); [rewrite K; reflexivity|].
    intros m. change (builtinName SBool m) with (m = "bool").
    apply String.eqb_eq.
  - injection H as <-.
    apply namedOr_describes with (c := SString); [rewrite K; reflexivity|].
    intros m. change (builtinName SString m) with (m = "string").
    apply String.eqb_eq.
  - destruct (envconfig.implementsInterface U t) eqn:I; cbn [andb] in H.
    + destruct (String.eqb_spec (reflect.Name (U t)) "") as [E | E];
        cbn [negb] in H; injection H as <-.
      * apply describes_plain_struct; auto.
      * apply describes_capable_struct; auto.
        now apply implementsInterface_iff.
    + injection H as <-. apply describes_plain_struct; auto. right.
      intros A. apply implementsInterface_iff in A. congruence.
Qed.

Lemma toTypeDescription_sound n : forall t d,
  envconfig.toTypeDescription U n t = Some d -> describes U t d.
Proof.
  induction n as [| n IH]; intros t d H; [discriminate|].
  rewrite toTypeDescription_S in H. unfold descBody in H.
  destruct (envconfig.kind U t) eqn:K;
    try (apply toTypeDescription_1; [exact H | rewrite K; reflexivity]).
  - destruct (envconfig.toTypeDescription U n (reflect.Elem (U t))) eqn:E;
      [|discriminate].
    injection H as <-. apply describes_list; auto.
  - destruct (envconfig.toTypeDescription U n (reflect.Key (U t))) eqn:E1;
      [|discriminate].
    destruct (envconfig.toTypeDescription U n (reflect.Elem (U t))) eqn:E2;
      [|discriminate].
    injection H as <-. apply describes_map; auto.
  - apply describes_pointer; auto.
  - destruct (envconfig.toTypeDescription U n (reflect.Elem (U t))) eqn:E;
      [|discriminate].
    injection H as <-. apply describes_list; auto.
Qed.

(** A deeper bound does not change an answer. *)
Lemma toTypeDescription_step n : forall t d,
  envconfig.toTypeDescription U n t = Some d ->
  envconfig.toTypeDescription U (S n) t = Some d.
Proof.
  induction n as [| n IH]; intros t d H; [discriminate|].
  rewrite toTypeDescription_S in H. rewrite toTypeDescription_S.
  unfold descBody in *.
  destruct (envconfig.kind U t); try exact H.
  - destruct (envconfig.toTypeDescription U n (reflect.Elem (U t))) eqn:E;
      [|discriminate]. now rewrite (IH _ _ E).
  - destruct (envconfig.toTypeDescription U n (reflect.Key (U t))) eqn:E1;
      [|discriminate].
    destruct (envconfig.toTypeDescription U n (reflect.Elem (U t))) eqn:E2;
      [|discriminate]. now rewrite (IH _ _ E1), (IH _ _ E2).
  - now apply IH.
  - destruct (envconfig.toTypeDescription U n (reflect.Elem (U t))) eqn:E;
      [|discriminate]. now rewrite (IH _ _ E).
Qed.

Lemma toTypeDescription_mono n m t d :
  n <= m ->
  envconfig.toTypeDescription U n t = Some d ->
  envconfig.toTypeDescription U m t = Some d.
Proof.
  induction 1; auto using toTypeDescription_step.
Qed.

Lemma toTypeDescription_returns t :
  finite_nesting U t ->
  exists n d, envconfig.toTypeDescription U n t = Some d.
Proof.
  induction 1 as [t C | t K _ [n [e IH]]
                  | t K _ [n1 [k IH1]] _ [n2 [e IH2]]].
  - exists 1. cbn [envconfig.toTypeDescription].
    destruct (envconfig.kind U t); try discriminate C; eauto.
    destruct (_ && _); eauto.
  - exists (S n). rewrite toTypeDescription_S. unfold descBody.
    destruct K as [K | [K | K]]; rewrite K, IH; eauto.
  - exists (S (max n1 n2)). rewrite toTypeDescription_S. unfold descBody.
    rewrite K.
    rewrite (toTypeDescription_mono n1 (max n1 n2) _ _
               (Nat.le_max_l _ _) IH1).
    rewrite (toTypeDescription_mono n2 (max n1 n2) _ _
               (Nat.le_max_r _ _) IH2).
    eauto.
Qed.

(** C10 (as amended).  On every type whose nesting through [Elem] and
    [Key] is finite, [toTypeDescription] returns, and what it returns is
    the description of the type: a pointer is described as its pointee; an
    array or slice as "Comma-separated list of <element>"; a map as
    "Comma-separated list of <key>:<value> pairs"; a struct by its name
    when the name is not empty and the type or its pointer form implements
    one of the four capability interfaces, and by the empty string
    otherwise; a scalar by its declared name unless that name is empty or
    the built-in one ("string", "bool", a name starting with "int", "uint"
    or "float"), when the generic description is used; any other kind by
    the type's own text. *)
Theorem toTypeDescription_finite t :
  finite_nesting U t ->
  exists d,
    describes U t d
    /\ exists n, forall m, n <= m ->
                           envconfig.toTypeDescription U m t = Some d.
Proof.
  intros F. destruct (toTypeDescription_returns t F) as [n [d H]].
  exists d. split.
  - eapply toTypeDescription_sound; eauto.
  - exists n. intros m L. eapply toTypeDescription_mono; eauto.
Qed.

End TypeDescriptionFacts.

Lemma finite_map_string_int : finite_nesting goTypes tMapStringInt.
Proof.
  apply finite_map; [reflexivity | |]; apply finite_simple; reflexivity.
Qed.

(** The theorem above at [map[string]int]. *)
Lemma toTypeDescription_finite_witness :
  finite_nesting goTypes tMapStringInt
  /\ exists d,
       describes goTypes tMapStringInt d
       /\ exists n, forall m, n <= m ->
            envconfig.toTypeDescription goTypes m tMapStringInt = Some d.
Proof.
  split.
  - exact finite_map_string_int.
  - apply (toTypeDescription_finite goTypes tMapStringInt).
    exact finite_map_string_int.
Defined.

Lemma self_slice_never_described n :
  envconfig.toTypeDescription goTypes n tSelfSlice = None.
Proof.
  induction n as [| n IH]; [reflexivity|].
  rewrite toTypeDescription_S. unfold descBody.
  change (envconfig.kind goTypes tSelfSlice) with reflect.Slice.
  change (reflect.Elem (goTypes tSelfSlice)) with tSelfSlice.
  now rewrite IH.
Qed.

(** C10, as stated, fails: on [type T []T] the function never returns,
    however deep the recursion is allowed to go. *)
Lemma toTypeDescription_not_total :
  ~ exists n d, envconfig.toTypeDescription goTypes n tSelfSlice = Some d.
Proof.
  intros [n [d H]]. rewrite self_slice_never_described in H. discriminate.
Qed.

Example describe_map :
  envconfig.toTypeDescription goTypes 2 tMapStringInt
  = Some "Comma-separated list of String:Integer pairs".
Proof. reflexivity. Qed.

Example describe_pointer_to_url :
  envconfig.toTypeDescription goTypes 2 tPtrURL = Some "URL".
Proof. reflexivity. Qed.

Example describe_interval :
  envconfig.toTypeDescription goTypes 1 tInterval = Some "Integer".
Proof. reflexivity. Qed.

Example describe_celsius :
  envconfig.toTypeDescription goTypes 1 tCelsius = Some "Celsius".
Proof. reflexivity. Qed.

(* --------------------------------------------------------------------- *)
(** ** The [usage_required] function and the rendering *)
(* --------------------------------------------------------------------- *)

Lemma ParseBool_false_literal s :
  strconv.ParseBool s = (false, None) -> In s falseLiterals.
Proof.
  unfold strconv.ParseBool, falseLiterals. cbn [existsb].
  repeat match goal with
         | |- context [String.eqb s ?x] =>
             destruct (String.eqb_spec s x) as [-> | ?]
         end;
    cbn; intros H; try discriminate H; auto 10.
Qed.

Lemma usage_required_lookup U :
  template.lookupFn (envconfig.functions U) "usage_required"
  = Some (fun (_ : nat) v => Some (envconfig.usage_required v)).
Proof. reflexivity. Qed.

(** C9.  [usage_required] gives the empty string for an empty [required]
    tag, "true" for a tag that parses as true, the tag as written for a
    tag that parses as false, and for any other tag the parse error,
    which ends the rendering at that call. *)
Theorem usage_required_cases (U : reflect.Types) (v : envconfig.varInfo) :
  let req := reflect.Get (envconfig.Tags v) "required" in
  (req = "" -> envconfig.usage_required v = ("", None))
  /\ (strconv.ParseBool req = (true, None) ->
      envconfig.usage_required v = ("true", None))
  /\ (strconv.ParseBool req = (false, None) ->
      envconfig.usage_required v = (req, None))
  /\ (forall e, req <> "" -> snd (strconv.ParseBool req) = Some e ->
      envconfig.usage_required v = ("", Some (NumError e))
      /\ forall fuel rest out,
           template.execNodes (envconfig.functions U) fuel v
             (template.Call "usage_required" :: rest) out
           = Some (out, Some (TemplateExecError "usage_required"
                                                (NumError e)))).
Proof.
  intros req. unfold envconfig.usage_required. fold req.
  repeat split.
  - intros ->. reflexivity.
  - intros H. rewrite H.
    destruct (String.eqb_spec req "") as [E | E]; [| reflexivity].
    rewrite E in H. discriminate H.
  - intros H. rewrite H.
    destruct (String.eqb_spec req "") as [E | E]; [| reflexivity].
    rewrite E in H. discriminate H.
  - destruct (String.eqb_spec req "") as [E | E]; [contradiction|].
    destruct (strconv.ParseBool req) as [b [e' |]]; simpl in *; congruence.
  - intros fuel rest out.
    cbn [template.execNodes]. rewrite usage_required_lookup.
    cbv beta. unfold envconfig.usage_required. fold req.
    destruct (String.eqb_spec req "") as [E | E]; [contradiction|].
    destruct (strconv.ParseBool req) as [b [e' |]]; simpl in *; congruence.
Qed.

(** The four cases at four tags: none, "True", "F" and "maybe". *)
Lemma usage_required_cases_witness :
  envconfig.usage_required (descriptor "Port" "PORT" tInt []) = ("", None)
  /\ envconfig.usage_required
       (descriptor "Port" "PORT" tInt [("required", "True")])
     = ("true", None)
  /\ envconfig.usage_required
       (descriptor "Port" "PORT" tInt [("required", "F")])
     = ("F", None)
  /\ envconfig.usage_required
       (descriptor "Port" "PORT" tInt [("required", "maybe")])
     = ("", Some (NumError (strconv.syntaxError "ParseBool" "maybe"))).
Proof.
  split; [| split; [| split]].
  - exact (proj1 (usage_required_cases goTypes
                    (descriptor "Port" "PORT" tInt [])) eq_refl).
  - exact (proj1 (proj2 (usage_required_cases goTypes
                    (descriptor "Port" "PORT" tInt [("required", "True")])))
                 eq_refl).
  - exact (proj1 (proj2 (proj2 (usage_required_cases goTypes
                    (descriptor "Port" "PORT" tInt [("required", "F")]))))
                 eq_refl).
  - apply (proj2 (proj2 (proj2 (usage_required_cases goTypes
                    (descriptor "Port" "PORT" tInt
                                [("required", "maybe")])))));
      [discriminate | reflexivity].
Defined.

(** X3.  When [usage_required] returns no error, its text is empty,
    "true", or one of the six literals that read as false; when it
    returns an error, its text is empty. *)
Theorem usage_required_range (v : envconfig.varInfo) :
  match envconfig.usage_required v with
  | (s, None) => s = "" \/ s = "true" \/ In s falseLiterals
  | (s, Some _) => s = ""
  end.
Proof.
  unfold envconfig.usage_required.
  destruct (String.eqb_spec (reflect.Get (envconfig.Tags v) "required") "")
    as [E | E]; cbn [negb].
  - now left.
  - destruct (strconv.ParseBool _) as [b [e |]] eqn:P; [reflexivity|].
    destruct b; [now right; left|].
    right; right. now apply ParseBool_false_literal.
Qed.

(** X4.  With the table format, a descriptor whose type is described and
    whose [required] tag is valid is rendered as one line: key, type,
    default, required and description, separated by tabs; the rendering
    then goes on with the next descriptor. *)
Theorem table_row_rendered (U : reflect.Types) (fuel : nat)
        (v : envconfig.varInfo) (rest : list envconfig.varInfo)
        (d out : string) :
  envconfig.usage_type U fuel v = Some d ->
  snd (envconfig.usage_required v) = None ->
  template.execRange (envconfig.functions U) fuel tableRow (v :: rest) out
  = template.execRange (envconfig.functions U) fuel tableRow rest
      (out ++ envconfig.usage_key v ++ tab ++ d ++ tab
           ++ envconfig.usage_default v ++ tab
           ++ fst (envconfig.usage_required v) ++ tab
           ++ envconfig.usage_description v ++ newline).
Proof.
  intros T R.
  cbn [template.execRange template.execNodes tableRow template.lookupFn
       envconfig.functions String.eqb Ascii.eqb Bool.eqb].
  rewrite T. destruct (envconfig.usage_required v) as [s [e |]];
    [discriminate R|].
  cbn [fst]. now rewrite !append_assoc.
Qed.

Lemma table_row_rendered_witness :
  template.execRange (envconfig.functions goTypes) 2 tableRow
    [descriptor "Port" "APP_PORT" tInt
       [("default", "8080"); ("required", "1"); ("desc", "listen port")]]
    ""
  = Some ("APP_PORT" ++ tab ++ "Integer" ++ tab ++ "8080" ++ tab ++ "true"
            ++ tab ++ "listen port" ++ newline, None).
Proof.
  rewrite (table_row_rendered goTypes 2 _ [] "Integer" "");
    reflexivity.
Defined.

(** X8.  With the table format, a descriptor whose [required] tag is not
    empty and does not parse as a boolean breaks the table off in the
    middle of its line: key, type and default are written, the error of
    [strconv.ParseBool] is returned inside a [template.ExecError], and
    the descriptors that follow are not rendered. *)
Theorem table_breaks_off (U : reflect.Types) (fuel : nat)
        (v : envconfig.varInfo) (rest : list envconfig.varInfo)
        (d out : string) (e : strconv.NumError) :
  envconfig.usage_type U fuel v = Some d ->
  reflect.Get (envconfig.Tags v) "required" <> "" ->
  snd (strconv.ParseBool (reflect.Get (envconfig.Tags v) "required"))
  = Some e ->
  template.execRange (envconfig.functions U) fuel tableRow (v :: rest) out
  = Some (out ++ envconfig.usage_key v ++ tab ++ d ++ tab
              ++ envconfig.usage_default v ++ tab,
          Some (TemplateExecError "usage_required" (NumError e))).
Proof.
  intros T N P.
  cbn [template.execRange template.execNodes tableRow template.lookupFn
       envconfig.functions String.eqb Ascii.eqb Bool.eqb].
  rewrite T. unfold envconfig.usage_required.
  destruct (String.eqb_spec (reflect.Get (envconfig.Tags v) "required") "")
    as [E | E]; [contradiction|].
  cbn [negb].
  destruct (strconv.ParseBool _) as [b [e' |]]; cbn [snd] in P;
    [| discriminate P].
  injection P as ->. now rewrite !append_assoc.
Qed.

Lemma table_breaks_off_witness :
  template.execRange (envconfig.functions goTypes) 2 tableRow
    [ descriptor "Port" "APP_PORT" tInt
        [("default", "8080"); ("required", "maybe")];
      descriptor "Host" "APP_HOST" tString [] ]
    ""
  = Some ("APP_PORT" ++ tab ++ "Integer" ++ tab ++ "8080" ++ tab,
          Some (TemplateExecError "usage_required"
                  (NumError (strconv.syntaxError "ParseBool" "maybe")))).
Proof.
  rewrite (table_breaks_off goTypes 2 _ _ "Integer" ""
             (strconv.syntaxError "ParseBool" "maybe"));
    [reflexivity | reflexivity | discriminate | reflexivity].
Defined.

(* --------------------------------------------------------------------- *)
(** ** The parse trees of the default formats *)
(* --------------------------------------------------------------------- *)

Example default_formats_unparse :
  unparse DefaultTableTree = envconfig.DefaultTableFormat
  /\ unparse DefaultListTree = envconfig.DefaultListFormat.
Proof. split; reflexivity. Qed.

Example Usagef_table_of_SpecWithURL :
  envconfig.Usagef gatherFlat goTypes parseDefaults emptyWorld 3 "env_config"
    SpecWithURL "" envconfig.DefaultTableFormat
  = Some (envconfig.mkResult emptyWorld SpecWithURL
            ("This application is configured via the environment. "
             ++ "The following environment" ++ newline
             ++ "variables can be used:" ++ newline ++ newline
             ++ "KEY" ++ tab ++ "TYPE" ++ tab ++ "DEFAULT" ++ tab
             ++ "REQUIRED" ++ tab ++ "DESCRIPTION" ++ newline
             ++ "ENV_CONFIG_URLVALUE" ++ tab ++ "URL" ++ tab ++ tab ++ tab
             ++ newline
             ++ "ENV_CONFIG_URLPOINTER" ++ tab ++ "URL" ++ tab ++ tab ++ tab
             ++ newline)
            (envconfig.Returns None)).
Proof. reflexivity. Qed.

(* ===================================================================== *)
(** * Further properties of [usage.go] *)
(* ===================================================================== *)

(** The three ways in which [strconv.ParseBool] ends. *)
Lemma ParseBool_cases (s : string) :
  (strconv.ParseBool s = (true, None) /\ In s boolLiterals)
  \/ (strconv.ParseBool s = (false, None) /\ In s boolLiterals)
  \/ (strconv.ParseBool s = (false, Some (strconv.syntaxError "ParseBool" s))
      /\ ~ In s boolLiterals).
Proof.
  unfold strconv.ParseBool, boolLiterals. cbn [existsb].
  repeat match goal with
         | |- context [String.eqb s ?x] =>
             destruct (String.eqb_spec s x) as [-> | ?]
         end;
    cbn; auto 20.
  right; right. split; [reflexivity |].
  intros H. repeat (destruct H as [H | H]; [congruence |]). exact H.
Qed.

(** X9.  What [usage_required] shows for a tag is stable: a descriptor
    whose [required] tag is the text shown for another descriptor is
    shown with that same text, so "True" becomes "true" and "true" stays
    "true". *)
Theorem usage_required_idempotent (v v' : envconfig.varInfo) (s : string) :
  envconfig.usage_required v = (s, None) ->
  reflect.Get (envconfig.Tags v') "required" = s ->
  envconfig.usage_required v' = (s, None).
Proof.
  unfold envconfig.usage_required. intros H T. rewrite T.
  destruct (String.eqb_spec (reflect.Get (envconfig.Tags v) "required") "")
    as [E | E]; cbn [negb] in H.
  - rewrite E in H. injection H as <-. reflexivity.
  - destruct (strconv.ParseBool (reflect.Get (envconfig.Tags v) "required"))
      as [b [e |]] eqn:P; [discriminate H |].
    destruct b; injection H as <-.
    + reflexivity.
    + rewrite P.
      destruct (String.eqb_spec
                  (reflect.Get (envconfig.Tags v) "required") "");
        [contradiction | reflexivity].
Qed.

Lemma usage_required_idempotent_witness :
  envconfig.usage_required
    (descriptor "Port" "PORT" tInt [("required", "True")]) = ("true", None)
  /\ envconfig.usage_required
       (descriptor "Host" "HOST" tString [("required", "true")])
     = ("true", None).
Proof.
  split; [reflexivity |].
  apply (usage_required_idempotent
           (descriptor "Port" "PORT" tInt [("required", "True")])
           (descriptor "Host" "HOST" tString [("required", "true")]) "true");
    reflexivity.
Defined.

(** X10.  [usage_required] returns an error exactly when the [required]
    tag is neither empty nor one of the twelve literals of
    [strconv.ParseBool]; the error is then the syntax error of
    [ParseBool] for that tag, and the text returned with it is empty. *)
Theorem usage_required_error_iff (v : envconfig.varInfo) :
  let req := reflect.Get (envconfig.Tags v) "required" in
  (snd (envconfig.usage_required v) <> None
   <-> req <> "" /\ ~ In req boolLiterals)
  /\ (forall e, snd (envconfig.usage_required v) = Some e ->
      envconfig.usage_required v
      = ("", Some (NumError (strconv.mkNumError "ParseBool" req
                                                "invalid syntax")))).
Proof.
  intros req. unfold envconfig.usage_required. fold req.
  destruct (String.eqb_spec req "") as [E | E]; cbn [negb].
  - split.
    + split; [intros H; now contradiction H | intros [H _]; contradiction].
    + intros e H. discriminate H.
  - destruct (ParseBool_cases req) as [[P L] | [[P L] | [P L]]]; rewrite P.
    + split.
      * split; [intros H; now contradiction H | intros [_ H]; contradiction].
      * intros e H. discriminate H.
    + split.
      * split; [intros H; now contradiction H | intros [_ H]; contradiction].
      * intros e H. discriminate H.
    + split.
      * split; [intros _; now split | intros _; discriminate].
      * intros e _. reflexivity.
Qed.

Section MoreTypeDescriptionFacts.

Variable U : reflect.Types.

(** What is described has finite nesting. *)
Lemma described_finite_nesting n : forall t d,
  envconfig.toTypeDescription U n t = Some d -> finite_nesting U t.
Proof.
  induction n as [| n IH]; intros t d H; [discriminate |].
  rewrite toTypeDescription_S in H. unfold descBody in H.
  destruct (envconfig.kind U t) eqn:K;
    try (apply finite_simple; rewrite K; reflexivity).
  - destruct (envconfig.toTypeDescription U n (reflect.Elem (U t))) eqn:E;
      [| discriminate]. apply finite_elem; eauto.
  - destruct (envconfig.toTypeDescription U n (reflect.Key (U t))) eqn:E1;
      [| discriminate].
    destruct (envconfig.toTypeDescription U n (reflect.Elem (U t))) eqn:E2;
      [| discriminate]. apply finite_map; eauto.
  - apply finite_elem; eauto.
  - destruct (envconfig.toTypeDescription U n (reflect.Elem (U t))) eqn:E;
      [| discriminate]. apply finite_elem; eauto.
Qed.

(** X11.  [toTypeDescription] returns on a type exactly when the nesting
    of the type through [Elem] and [Key] is finite: on every other type
    the recursion goes on without end, whatever the depth allowed. *)
Theorem toTypeDescription_returns_iff (t : reflect.Type_) :
  (exists n d, envconfig.toTypeDescription U n t = Some d)
  <-> finite_nesting U t.
Proof.
  split.
  - intros [n [d H]]. eapply described_finite_nesting; eauto.
  - apply toTypeDescription_returns.
Qed.

Lemma derefs_described p t :
  derefs U p t ->
  forall d,
    (exists n, envconfig.toTypeDescription U n p = Some d)
    <-> (exists n, envconfig.toTypeDescription U n t = Some d).
Proof.
  induction 1 as [t | p t K _ IH]; intros d; [tauto |].
  rewrite <- IH. split; intros [n H].
  - destruct n as [| n]; [discriminate |].
    rewrite toTypeDescription_S in H. unfold descBody in H.
    rewrite K in H. eauto.
  - exists (S n). rewrite toTypeDescription_S. unfold descBody.
    now rewrite K.
Qed.

(** X12.  Pointers do not show in a description: a pointer type, however
    many pointers deep, is described by a text exactly when the type it
    leads to is described by that text, so a field and a pointer to it are
    documented alike. *)
Theorem pointer_described_as_pointee (p t : reflect.Type_) (d : string) :
  derefs U p t ->
  ((exists n, envconfig.toTypeDescription U n p = Some d)
   <-> (exists n, envconfig.toTypeDescription U n t = Some d)).
Proof.
  intros D. now apply derefs_described.
Qed.

End MoreTypeDescriptionFacts.

Lemma pointer_described_as_pointee_witness :
  derefs goTypes tPtrURL tURL
  /\ ((exists n, envconfig.toTypeDescription goTypes n tPtrURL = Some "URL")
      <-> (exists n, envconfig.toTypeDescription goTypes n tURL
                     = Some "URL")).
Proof.
  assert (D : derefs goTypes tPtrURL tURL).
  { apply derefs_pointer; [reflexivity | apply derefs_here]. }
  split; [exact D |].
  exact (pointer_described_as_pointee goTypes tPtrURL tURL "URL" D).
Defined.

(* --------------------------------------------------------------------- *)
(** ** What a description is read from *)
(* --------------------------------------------------------------------- *)

Lemma implementsInterface_alike (U U' : reflect.Types) t :
  (forall i, reflect.Implements (U t) i = reflect.Implements (U' t) i) ->
  (forall i, reflect.PtrToImplements (U t) i
             = reflect.PtrToImplements (U' t) i) ->
  envconfig.implementsInterface U t = envconfig.implementsInterface U' t.
Proof.
  intros I P. unfold envconfig.implementsInterface.
  now rewrite !I, !P.
Qed.

Lemma toTypeDescription_1_alike (U U' : reflect.Types) t :
  readsAlike (U t) (U' t) ->
  composite (envconfig.kind U t) = false ->
  envconfig.toTypeDescription U 1 t = envconfig.toTypeDescription U' 1 t.
Proof.
  intros (K & _ & _ & R) C. unfold envconfig.kind in C. rewrite C in R.
  cbn [envconfig.toTypeDescription]. unfold envconfig.kind.
  rewrite <- K.
  destruct (reflect.Kind_ (U t)) eqn:E; try discriminate C;
    cbn [scalarOf] in R; unfold envconfig.namedOr;
    try (now rewrite R).
  destruct R as (N & I & P).
  now rewrite (implementsInterface_alike U U' t I P), N.
Qed.

(** X23.  [toTypeDescription] reads the methods of struct types only, and
    reads neither the name nor the methods of an array, slice, map or
    pointer type: two programs whose type descriptors agree on the rest
    give every type the same description (and fail to describe the same
    types), at every recursion depth. *)
Theorem description_reads (U U' : reflect.Types) :
  (forall t, readsAlike (U t) (U' t)) ->
  forall n t,
    envconfig.toTypeDescription U n t = envconfig.toTypeDescription U' n t.
Proof.
  intros A. induction n as [| n IH]; intros t; [reflexivity |].
  rewrite !toTypeDescription_S. unfold descBody.
  pose proof (A t) as At. destruct At as (K & E & Ky & R).
  unfold envconfig.kind. rewrite <- K, <- E, <- Ky, !IH.
  destruct (reflect.Kind_ (U t)) eqn:Kt; try reflexivity;
    apply toTypeDescription_1_alike; auto;
    unfold envconfig.kind; rewrite Kt; reflexivity.
Qed.

Lemma goTypesWithMethods_alike t :
  readsAlike (goTypes t) (goTypesWithMethods t).
Proof.
  do 8 (destruct t as [| t]; [repeat split |]). repeat split.
Qed.

Lemma description_reads_witness :
  (forall t, readsAlike (goTypes t) (goTypesWithMethods t))
  /\ envconfig.toTypeDescription goTypes 3 tMapStringInt
     = envconfig.toTypeDescription goTypesWithMethods 3 tMapStringInt.
Proof.
  split; [exact goTypesWithMethods_alike |].
  exact (description_reads goTypes goTypesWithMethods
           goTypesWithMethods_alike 3 tMapStringInt).
Defined.

Example ports_described_as_list :
  envconfig.toTypeDescription goTypesWithMethods 3 tMapStringInt
  = Some "Comma-separated list of String:Integer pairs".
Proof. reflexivity. Qed.

(* --------------------------------------------------------------------- *)
(** ** What the default formats render *)
(* --------------------------------------------------------------------- *)

Section Rendering.

Variable U : reflect.Types.

Lemma typeText_described fuel v :
  typeDescribed U fuel v ->
  envconfig.usage_type U fuel v = Some (typeText U fuel v).
Proof.
  unfold typeDescribed, typeText.
  destruct (envconfig.usage_type U fuel v); [reflexivity | congruence].
Qed.

(** One pass through the row of the table. *)
Lemma exec_tableRow fuel v out :
  typeDescribed U fuel v ->
  template.execNodes (envconfig.functions U) fuel v tableRow out
  = match snd (envconfig.usage_required v) with
    | None => Some (out ++ tableLine U fuel v, None)
    | Some e =>
        Some (out ++ tableLineStart U fuel v,
              Some (TemplateExecError "usage_required" e))
    end.
Proof.
  intros T. apply typeText_described in T.
  cbn [template.execNodes tableRow template.lookupFn
       envconfig.functions String.eqb Ascii.eqb Bool.eqb].
  rewrite T. unfold tableLine, tableLineStart.
  destruct (envconfig.usage_required v) as [s [e |]]; cbn [fst snd];
    now rewrite !append_assoc.
Qed.

Lemma exec_tableRow_undescribed fuel v out :
  envconfig.usage_type U fuel v = None ->
  template.execNodes (envconfig.functions U) fuel v tableRow out = None.
Proof.
  intros T.
  cbn [template.execNodes tableRow template.lookupFn
       envconfig.functions String.eqb Ascii.eqb Bool.eqb].
  now rewrite T.
Qed.

(** One pass through the entry of the list. *)
Lemma exec_listRow fuel v out :
  typeDescribed U fuel v ->
  template.execNodes (envconfig.functions U) fuel v listRow out
  = match snd (envconfig.usage_required v) with
    | None => Some (out ++ listEntry U fuel v, None)
    | Some e =>
        Some (out ++ listEntryStart U fuel v,
              Some (TemplateExecError "usage_required" e))
    end.
Proof.
  intros T. apply typeText_described in T.
  cbn [template.execNodes listRow template.lookupFn
       envconfig.functions String.eqb Ascii.eqb Bool.eqb].
  rewrite T. unfold listEntry, listEntryStart.
  destruct (envconfig.usage_required v) as [s [e |]]; cbn [fst snd];
    now rewrite !append_assoc.
Qed.

Lemma exec_listRow_undescribed fuel v out :
  envconfig.usage_type U fuel v = None ->
  template.execNodes (envconfig.functions U) fuel v listRow out = None.
Proof.
  intros T.
  cbn [template.execNodes listRow template.lookupFn
       envconfig.functions String.eqb Ascii.eqb Bool.eqb].
  now rewrite T.
Qed.

End Rendering.

Lemma append_nil_r (s : string) : s ++ "" = s.
Proof.
  induction s as [| c s IH]; [reflexivity |]. cbn [append]. now rewrite IH.
Qed.

Lemma rows_app line l1 l2 :
  rows line (l1 ++ l2) = rows line l1 ++ rows line l2.
Proof.
  induction l1 as [| x l1 IH]; [reflexivity |].
  cbn [app rows]. now rewrite IH, append_assoc.
Qed.

(** A [range] over descriptors, for a row of which it is known what one
    pass writes. *)
Section RangeFacts.

Variable U : reflect.Types.
Variable body : list template.Node.
Variable line start : nat -> envconfig.varInfo -> string.

Hypothesis body_described : forall fuel v out,
  typeDescribed U fuel v ->
  template.execNodes (envconfig.functions U) fuel v body out
  = match snd (envconfig.usage_required v) with
    | None => Some (out ++ line fuel v, None)
    | Some e =>
        Some (out ++ start fuel v,
              Some (TemplateExecError "usage_required" e))
    end.

Hypothesis body_undescribed : forall fuel v out,
  envconfig.usage_type U fuel v = None ->
  template.execNodes (envconfig.functions U) fuel v body out = None.

Lemma range_rendered fuel : forall infos out,
  Forall (fun v => typeDescribed U fuel v /\ validRequired v) infos ->
  template.execRange (envconfig.functions U) fuel body infos out
  = Some (out ++ rows (line fuel) infos, None).
Proof.
  induction infos as [| v infos IH]; intros out F.
  - cbn. now rewrite append_nil_r.
  - pose proof (Forall_inv F) as [T R].
    pose proof (Forall_inv_tail F) as F'.
    cbn [template.execRange rows].
    rewrite body_described by assumption. unfold validRequired in R.
    rewrite R. rewrite IH by assumption. now rewrite append_assoc.
Qed.

Lemma range_stops fuel good bad rest out e :
  Forall (fun v => typeDescribed U fuel v /\ validRequired v) good ->
  typeDescribed U fuel bad ->
  snd (envconfig.usage_required bad) = Some e ->
  template.execRange (envconfig.functions U) fuel body
    (good ++ bad :: rest) out
  = Some (out ++ rows (line fuel) good ++ start fuel bad,
          Some (TemplateExecError "usage_required" e)).
Proof.
  revert out. induction good as [| v good IH]; intros out F T R.
  - cbn [app template.execRange rows].
    rewrite body_described by assumption. now rewrite R.
  - pose proof (Forall_inv F) as [Tv Rv].
    pose proof (Forall_inv_tail F) as F'.
    cbn [app template.execRange rows].
    rewrite body_described by assumption. unfold validRequired in Rv.
    rewrite Rv. rewrite IH by assumption. now rewrite !append_assoc.
Qed.

Lemma range_never_returns fuel : forall infos out,
  Forall validRequired infos ->
  Exists (fun v => ~ finite_nesting U
                       (envconfig.TypeOf (envconfig.Field v))) infos ->
  template.execRange (envconfig.functions U) fuel body infos out = None.
Proof.
  induction infos as [| v infos IH]; intros out F X; [inversion X |].
  pose proof (Forall_inv F) as R. pose proof (Forall_inv_tail F) as F'.
  cbn [template.execRange].
  destruct (envconfig.usage_type U fuel v) as [d |] eqn:T.
  - rewrite body_described by (unfold typeDescribed; congruence).
    unfold validRequired in R. rewrite R.
    apply IH; [assumption |].
    inversion X as [? ? N | ? ? X']; subst; [| assumption].
    exfalso. apply N. unfold envconfig.usage_type in T.
    eapply described_finite_nesting; eauto.
  - now rewrite body_undescribed.
Qed.

End RangeFacts.

Example default_trees_have_headers :
  DefaultTableTree = [template.Top tableHeader; template.Range tableRow]
  /\ DefaultListTree
     = [template.Top listHeader; template.Range listRow;
        template.Top newline].
Proof. split; reflexivity. Qed.

(** X13.  With the table format and descriptors whose types are described
    and whose [required] tags are valid, [Execute] writes the header and
    then one line per descriptor, in order, and returns no error. *)
Theorem table_rendered (U : reflect.Types) (fuel : nat)
        (infos : list envconfig.varInfo) (out : string) :
  Forall (fun v => typeDescribed U fuel v /\ validRequired v) infos ->
  template.Execute (tableTemplate U) fuel out infos
  = Some (out ++ tableHeader ++ rows (tableLine U fuel) infos, None).
Proof.
  intros F. unfold template.Execute, tableTemplate.
  cbn [template.Funcs template.Tree DefaultTableTree template.execTop].
  rewrite (range_rendered U tableRow (tableLine U) (tableLineStart U)
             (exec_tableRow U)) by assumption.
  now rewrite append_assoc.
Qed.

(** X14.  With the table format, the first descriptor whose [required]
    tag is not valid ends the rendering: the header and the complete
    lines of the descriptors before it have been written, then the start
    of its own line up to the [required] column, and [Execute] returns
    the error of that tag; nothing of the descriptors after it is
    written. *)
Theorem table_stops_at_first_invalid (U : reflect.Types) (fuel : nat)
        (good : list envconfig.varInfo) (bad : envconfig.varInfo)
        (rest : list envconfig.varInfo) (out : string) (e : error) :
  Forall (fun v => typeDescribed U fuel v /\ validRequired v) good ->
  typeDescribed U fuel bad ->
  snd (envconfig.usage_required bad) = Some e ->
  template.Execute (tableTemplate U) fuel out (good ++ bad :: rest)
  = Some (out ++ tableHeader ++ rows (tableLine U fuel) good
              ++ tableLineStart U fuel bad,
          Some (TemplateExecError "usage_required" e)).
Proof.
  intros F T R. unfold template.Execute, tableTemplate.
  cbn [template.Funcs template.Tree DefaultTableTree template.execTop].
  rewrite (range_stops U tableRow (tableLine U) (tableLineStart U)
             (exec_tableRow U) fuel good bad rest _ e) by assumption.
  now rewrite append_assoc.
Qed.

(** X15.  When the [required] tags are all valid and the type of some
    descriptor nests without end, neither default format is ever
    rendered: [Execute] does not return, whatever recursion depth is
    allowed. *)
Theorem default_formats_never_rendered (U : reflect.Types)
        (infos : list envconfig.varInfo) :
  Forall validRequired infos ->
  Exists (fun v => ~ finite_nesting U
                       (envconfig.TypeOf (envconfig.Field v))) infos ->
  forall fuel out,
    template.Execute (tableTemplate U) fuel out infos = None
    /\ template.Execute (listTemplate U) fuel out infos = None.
Proof.
  intros F X fuel out. unfold template.Execute, tableTemplate, listTemplate.
  cbn [template.Funcs template.Tree DefaultTableTree DefaultListTree
       template.execTop].
  rewrite (range_never_returns U tableRow (tableLine U) (tableLineStart U)
             (exec_tableRow U) (exec_tableRow_undescribed U))
    by assumption.
  rewrite (range_never_returns U listRow (listEntry U) (listEntryStart U)
             (exec_listRow U) (exec_listRow_undescribed U))
    by assumption.
  split; reflexivity.
Qed.

(** X16.  With the list format and descriptors whose types are described
    and whose [required] tags are valid, [Execute] writes the header, one
    entry of five lines per descriptor, in order, and a final newline,
    and returns no error. *)
Theorem list_rendered (U : reflect.Types) (fuel : nat)
        (infos : list envconfig.varInfo) (out : string) :
  Forall (fun v => typeDescribed U fuel v /\ validRequired v) infos ->
  template.Execute (listTemplate U) fuel out infos
  = Some (out ++ listHeader ++ rows (listEntry U fuel) infos ++ newline,
          None).
Proof.
  intros F. unfold template.Execute, listTemplate.
  cbn [template.Funcs template.Tree DefaultListTree template.execTop].
  rewrite (range_rendered U listRow (listEntry U) (listEntryStart U)
             (exec_listRow U)) by assumption.
  now rewrite !append_assoc.
Qed.

(** X17.  With the list format, the first descriptor whose [required] tag
    is not valid ends the rendering after its key, description, type and
    default have been written: only the value behind the [required]
    label and the final newline are missing, and nothing of the
    descriptors after it is written. *)
Theorem list_stops_at_first_invalid (U : reflect.Types) (fuel : nat)
        (good : list envconfig.varInfo) (bad : envconfig.varInfo)
        (rest : list envconfig.varInfo) (out : string) (e : error) :
  Forall (fun v => typeDescribed U fuel v /\ validRequired v) good ->
  typeDescribed U fuel bad ->
  snd (envconfig.usage_required bad) = Some e ->
  template.Execute (listTemplate U) fuel out (good ++ bad :: rest)
  = Some (out ++ listHeader ++ rows (listEntry U fuel) good
              ++ listEntryStart U fuel bad,
          Some (TemplateExecError "usage_required" e)).
Proof.
  intros F T R. unfold template.Execute, listTemplate.
  cbn [template.Funcs template.Tree DefaultListTree template.execTop].
  rewrite (range_stops U listRow (listEntry U) (listEntryStart U)
             (exec_listRow U) fuel good bad rest _ e) by assumption.
  now rewrite append_assoc.
Qed.

Lemma port_and_host_render :
  Forall (fun v => typeDescribed goTypes 2 v /\ validRequired v)
         [portDescriptor; hostDescriptor].
Proof.
  repeat constructor; discriminate.
Qed.

Lemma table_rendered_witness :
  Forall (fun v => typeDescribed goTypes 2 v /\ validRequired v)
         [portDescriptor; hostDescriptor]
  /\ template.Execute (tableTemplate goTypes) 2 ""
       [portDescriptor; hostDescriptor]
     = Some (tableHeader
             ++ "APP_PORT" ++ tab ++ "Integer" ++ tab ++ "8080" ++ tab
             ++ "true" ++ tab ++ "listen port" ++ newline
             ++ "APP_HOST" ++ tab ++ "String" ++ tab ++ tab ++ tab
             ++ newline, None).
Proof.
  split; [exact port_and_host_render |].
  rewrite (table_rendered goTypes 2 [portDescriptor; hostDescriptor] ""
             port_and_host_render).
  reflexivity.
Defined.

Lemma table_stops_at_first_invalid_witness :
  template.Execute (tableTemplate goTypes) 2 ""
    ([portDescriptor; hostDescriptor] ++ badDescriptor :: [portDescriptor])
  = Some (tableHeader
          ++ "APP_PORT" ++ tab ++ "Integer" ++ tab ++ "8080" ++ tab
          ++ "true" ++ tab ++ "listen port" ++ newline
          ++ "APP_HOST" ++ tab ++ "String" ++ tab ++ tab ++ tab ++ newline
          ++ "APP_MODE" ++ tab ++ "String" ++ tab ++ "fast" ++ tab,
          Some (TemplateExecError "usage_required"
                  (NumError (strconv.syntaxError "ParseBool" "maybe")))).
Proof.
  rewrite (table_stops_at_first_invalid goTypes 2
             [portDescriptor; hostDescriptor] badDescriptor
             [portDescriptor] ""
             (NumError (strconv.syntaxError "ParseBool" "maybe"))
             port_and_host_render);
    [reflexivity | discriminate | reflexivity].
Defined.

Lemma self_slice_not_finite : ~ finite_nesting goTypes tSelfSlice.
Proof.
  intros F. apply toTypeDescription_returns in F.
  destruct F as [n [d H]]. rewrite self_slice_never_described in H.
  discriminate H.
Qed.

Lemma default_formats_never_rendered_witness :
  template.Execute (tableTemplate goTypes) 9 ""
    [portDescriptor; selfSliceDescriptor] = None
  /\ template.Execute (listTemplate goTypes) 9 ""
       [portDescriptor; selfSliceDescriptor] = None.
Proof.
  apply (default_formats_never_rendered goTypes
           [portDescriptor; selfSliceDescriptor]).
  - repeat constructor.
  - apply Exists_cons_tl. apply Exists_cons_hd.
    exact self_slice_not_finite.
Defined.

Lemma list_rendered_witness :
  template.Execute (listTemplate goTypes) 2 ""
    [portDescriptor; hostDescriptor]
  = Some (listHeader
          ++ newline ++ "APP_PORT"
          ++ newline ++ "  [description] listen port"
          ++ newline ++ "  [type]        Integer"
          ++ newline ++ "  [default]     8080"
          ++ newline ++ "  [required]    true"
          ++ newline ++ "APP_HOST"
          ++ newline ++ "  [description] "
          ++ newline ++ "  [type]        String"
          ++ newline ++ "  [default]     "
          ++ newline ++ "  [required]    "
          ++ newline, None).
Proof.
  rewrite (list_rendered goTypes 2 [portDescriptor; hostDescriptor] ""
             port_and_host_render).
  reflexivity.
Defined.

Lemma list_stops_at_first_invalid_witness :
  template.Execute (listTemplate goTypes) 2 ""
    ([portDescriptor] ++ badDescriptor :: [hostDescriptor])
  = Some (listHeader
          ++ newline ++ "APP_PORT"
          ++ newline ++ "  [description] listen port"
          ++ newline ++ "  [type]        Integer"
          ++ newline ++ "  [default]     8080"
          ++ newline ++ "  [required]    true"
          ++ newline ++ "APP_MODE"
          ++ newline ++ "  [description] "
          ++ newline ++ "  [type]        String"
          ++ newline ++ "  [default]     fast"
          ++ newline ++ "  [required]    ",
          Some (TemplateExecError "usage_required"
                  (NumError (strconv.syntaxError "ParseBool" "maybe")))).
Proof.
  rewrite (list_stops_at_first_invalid goTypes 2
             [portDescriptor] badDescriptor [hostDescriptor] ""
             (NumError (strconv.syntaxError "ParseBool" "maybe")));
    [reflexivity | repeat constructor; discriminate | discriminate
     | reflexivity].
Defined.

(* --------------------------------------------------------------------- *)
(** ** How the usage functions end *)
(* --------------------------------------------------------------------- *)

Section MoreUsageFacts.

Variable Spec : Type.
Variable gatherInfo :
  envconfig.World -> Spec -> envconfig.Options
  -> envconfig.World * Spec * (list envconfig.varInfo + error).
Variable U : reflect.Types.
Variable Parse : string -> list template.TopNode + error.
Variable tabwriter : string -> string.

Lemma UsagetX_with_template w fuel spec usageOptions tmpl r :
  envconfig.UsageOptions.Template usageOptions = Some tmpl ->
  envconfig.UsagetX gatherInfo w fuel spec usageOptions = Some r ->
  envconfig.outcome r <> envconfig.Panics.
Proof.
  unfold envconfig.UsagetX. intros T H. rewrite T in H.
  destruct (gatherInfo w spec _)
    as [[w' v] [infos | err]].
  - destruct (template.Execute tmpl fuel _ infos) as [[o e] |];
      [| discriminate H].
    injection H as <-. discriminate.
  - injection H as <-. discriminate.
Qed.

Lemma UsagefX_no_panic w fuel spec usageOptions r :
  envconfig.UsagefX gatherInfo U Parse w fuel spec usageOptions = Some r ->
  envconfig.outcome r <> envconfig.Panics.
Proof.
  unfold envconfig.UsagefX.
  destruct (envconfig.UsageOptions.Template usageOptions) as [tmpl |] eqn:T.
  - apply UsagetX_with_template with (tmpl := tmpl). exact T.
  - destruct (Parse (envconfig.UsageOptions.Format usageOptions))
      as [tree | err].
    + apply UsagetX_with_template
        with (tmpl := template.mkTemplate (envconfig.functions U) tree).
      reflexivity.
    + intros H. injection H as <-. discriminate.
Qed.

(** X19.  [UsagefX], [Usagef], [UsageX] and [Usage] never panic on a nil
    template: whenever one of them returns, it returns an error value or
    nil, because the template is set before [UsagetX] uses it. *)
Theorem format_functions_never_panic (w : envconfig.World) (fuel : nat)
        (stdout prefix out format : string)
        (spec : Spec)
        (usageOptions : envconfig.UsageOptions.t)
        (options : envconfig.Options)
        (r : envconfig.UsageResult Spec) :
  envconfig.UsagefX gatherInfo U Parse w fuel spec usageOptions = Some r
  \/ envconfig.Usagef gatherInfo U Parse w fuel prefix spec out format
     = Some r
  \/ envconfig.UsageX gatherInfo U Parse tabwriter w fuel stdout spec options
     = Some r
  \/ envconfig.Usage gatherInfo U Parse tabwriter w fuel stdout prefix spec
     = Some r ->
  envconfig.outcome r <> envconfig.Panics.
Proof.
  assert (X : forall o, envconfig.UsageX gatherInfo U Parse tabwriter w fuel
                          stdout spec o = Some r ->
                        envconfig.outcome r <> envconfig.Panics).
  { intros o H. unfold envconfig.UsageX in H.
    destruct (envconfig.UsagefX gatherInfo U Parse w fuel spec _)
      as [r' |] eqn:E; [| discriminate H].
    injection H as <-. cbn [envconfig.outcome].
    eapply UsagefX_no_panic; eauto. }
  intros [H | [H | [H | H]]].
  - eapply UsagefX_no_panic; eauto.
  - eapply UsagefX_no_panic; eauto.
  - eapply X; eauto.
  - eapply X; eauto.
Qed.

(** X20.  [Usage] prints the table: when the default table format parses
    to its tree, the walk of the record succeeds, and the descriptors
    have described types and valid [required] tags, standard output
    receives, behind what it held, the header and one line per
    descriptor as laid out by the tab writer, and [Usage] returns nil. *)
Theorem Usage_prints_table (w w' : envconfig.World) (fuel : nat)
        (stdout prefix : string) (spec : Spec)
        (v : Spec) (infos : list envconfig.varInfo) :
  Parse envconfig.DefaultTableFormat = inl DefaultTableTree ->
  gatherInfo w spec (envconfig.mkOptions prefix false)
  = (w', v, inl infos) ->
  Forall (fun i => typeDescribed U fuel i /\ validRequired i) infos ->
  envconfig.Usage gatherInfo U Parse tabwriter w fuel stdout prefix spec
  = Some (envconfig.mkResult w' v
            (stdout ++ tabwriter
                         (tableHeader ++ rows (tableLine U fuel) infos))
            (envconfig.Returns None)).
Proof.
  intros P G F.
  unfold envconfig.Usage, envconfig.UsageX, envconfig.UsagefX.
  cbn [envconfig.UsageOptions.Template envconfig.UsageOptions.Format
       envconfig.Prefix envconfig.SplitWords].
  rewrite P. unfold envconfig.UsagetX.
  cbn [envconfig.UsageOptions.withTemplate envconfig.UsageOptions.Prefix
       envconfig.UsageOptions.SplitWords envconfig.UsageOptions.Template
       envconfig.UsageOptions.Out envconfig.UsageOptions.Format].
  rewrite G.
  change (template.mkTemplate (envconfig.functions U) DefaultTableTree)
    with (tableTemplate U).
  unfold template.Execute, tableTemplate.
  cbn [template.Funcs template.Tree DefaultTableTree template.execTop].
  rewrite (range_rendered U tableRow (tableLine U) (tableLineStart U)
             (exec_tableRow U)) by assumption.
  reflexivity.
Qed.

(** X21.  [UsageX] flushes what has been rendered even when the rendering
    fails: with a descriptor whose [required] tag is not valid, standard
    output receives the table up to the [required] column of that
    descriptor's line, and [UsageX] returns the error of the tag. *)
Theorem UsageX_prints_partial_table (w w' : envconfig.World) (fuel : nat)
        (stdout : string) (spec : Spec)
        (options : envconfig.Options)
        (v : Spec)
        (good : list envconfig.varInfo) (bad : envconfig.varInfo)
        (rest : list envconfig.varInfo) (e : error) :
  Parse envconfig.DefaultTableFormat = inl DefaultTableTree ->
  gatherInfo w spec options
  = (w', v, inl (good ++ bad :: rest)%list) ->
  Forall (fun i => typeDescribed U fuel i /\ validRequired i) good ->
  typeDescribed U fuel bad ->
  snd (envconfig.usage_required bad) = Some e ->
  envconfig.UsageX gatherInfo U Parse tabwriter w fuel stdout spec options
  = Some (envconfig.mkResult w' v
            (stdout ++ tabwriter
                         (tableHeader ++ rows (tableLine U fuel) good
                          ++ tableLineStart U fuel bad))
            (envconfig.Returns
               (Some (TemplateExecError "usage_required" e)))).
Proof.
  intros P G F T R. destruct options as [prefix split].
  unfold envconfig.UsageX, envconfig.UsagefX.
  cbn [envconfig.UsageOptions.Template envconfig.UsageOptions.Format
       envconfig.Prefix envconfig.SplitWords].
  rewrite P. unfold envconfig.UsagetX.
  cbn [envconfig.UsageOptions.withTemplate envconfig.UsageOptions.Prefix
       envconfig.UsageOptions.SplitWords envconfig.UsageOptions.Template
       envconfig.UsageOptions.Out envconfig.UsageOptions.Format].
  rewrite G.
  unfold template.Execute.
  cbn [template.Funcs template.Tree DefaultTableTree template.execTop].
  rewrite (range_stops U tableRow (tableLine U) (tableLineStart U)
             (exec_tableRow U) fuel good bad rest _ e) by assumption.
  reflexivity.
Qed.

(** X22.  [Usagef] with the list format renders the list into the
    caller's writer: when the format parses to its tree, the walk
    succeeds, and the descriptors have described types and valid
    [required] tags, the writer receives, behind what it held, the header,
    one entry per descriptor and a final newline, and [Usagef] returns
    nil. *)
Theorem Usagef_prints_list (w w' : envconfig.World) (fuel : nat)
        (prefix out : string) (spec : Spec)
        (v : Spec) (infos : list envconfig.varInfo) :
  Parse envconfig.DefaultListFormat = inl DefaultListTree ->
  gatherInfo w spec (envconfig.mkOptions prefix false)
  = (w', v, inl infos) ->
  Forall (fun i => typeDescribed U fuel i /\ validRequired i) infos ->
  envconfig.Usagef gatherInfo U Parse w fuel prefix spec out
    envconfig.DefaultListFormat
  = Some (envconfig.mkResult w' v
            (out ++ listHeader ++ rows (listEntry U fuel) infos ++ newline)
            (envconfig.Returns None)).
Proof.
  intros P G F.
  unfold envconfig.Usagef, envconfig.UsagefX.
  cbn [envconfig.UsageOptions.Template envconfig.UsageOptions.Format].
  rewrite P. unfold envconfig.UsagetX.
  cbn [envconfig.UsageOptions.withTemplate envconfig.UsageOptions.Prefix
       envconfig.UsageOptions.SplitWords envconfig.UsageOptions.Template
       envconfig.UsageOptions.Out envconfig.UsageOptions.Format].
  rewrite G.
  unfold template.Execute.
  cbn [template.Funcs template.Tree DefaultListTree template.execTop].
  rewrite (range_rendered U listRow (listEntry U) (listEntryStart U)
             (exec_listRow U)) by assumption.
  now rewrite !append_assoc.
Qed.

End MoreUsageFacts.

Lemma infosOfSpecWithURL_render :
  Forall (fun i => typeDescribed goTypes 3 i /\ validRequired i)
         infosOfSpecWithURL.
Proof.
  repeat constructor; discriminate.
Qed.

Lemma format_functions_never_panic_witness :
  envconfig.Usagef gatherFlat goTypes parseDefaults emptyWorld 3 "env_config"
    SpecWithURL "" "{{range"
  = Some (envconfig.mkResult emptyWorld SpecWithURL ""
            (envconfig.Returns
               (Some (TemplateParseError "unexpected format"))))
  /\ envconfig.outcome
       (envconfig.mkResult emptyWorld SpecWithURL ""
          (envconfig.Returns
             (Some (TemplateParseError "unexpected format"))))
     <> envconfig.Panics.
Proof.
  split; [reflexivity |].
  apply (format_functions_never_panic GoRecord gatherFlat goTypes parseDefaults
           plainTabwriter emptyWorld 3 "" "env_config" "" "{{range"
           SpecWithURL (tableOptions "env_config")
           (envconfig.mkOptions "env_config" false)).
  right; left. reflexivity.
Defined.

Lemma Usage_prints_table_witness :
  envconfig.Usage gatherFlat goTypes parseDefaults plainTabwriter emptyWorld 3
    "$ " "env_config" SpecWithURL
  = Some (envconfig.mkResult emptyWorld SpecWithURL
            ("$ " ++ tableHeader
             ++ "ENV_CONFIG_URLVALUE" ++ tab ++ "URL" ++ tab ++ tab ++ tab
             ++ newline
             ++ "ENV_CONFIG_URLPOINTER" ++ tab ++ "URL" ++ tab ++ tab ++ tab
             ++ newline)
            (envconfig.Returns None)).
Proof.
  rewrite (Usage_prints_table GoRecord gatherFlat goTypes parseDefaults
             plainTabwriter emptyWorld emptyWorld 3 "$ " "env_config"
             SpecWithURL SpecWithURL
             infosOfSpecWithURL);
    [reflexivity | reflexivity | reflexivity
     | exact infosOfSpecWithURL_render].
Defined.

Lemma UsageX_prints_partial_table_witness :
  envconfig.UsageX gatherFlat goTypes parseDefaults plainTabwriter emptyWorld 3
    "" SpecWithMode (envconfig.mkOptions "app" false)
  = Some (envconfig.mkResult emptyWorld SpecWithMode
            (tableHeader
             ++ "APP_HOST" ++ tab ++ "String" ++ tab ++ tab ++ tab
             ++ newline
             ++ "APP_MODE" ++ tab ++ "String" ++ tab ++ tab)
            (envconfig.Returns
               (Some (TemplateExecError "usage_required"
                        (NumError
                           (strconv.syntaxError "ParseBool" "maybe")))))).
Proof.
  rewrite (UsageX_prints_partial_table GoRecord gatherFlat goTypes parseDefaults
             plainTabwriter emptyWorld emptyWorld 3 ""
             SpecWithMode
             (envconfig.mkOptions "app" false) SpecWithMode
             [envconfig.mkVarInfo "Host" [] "APP_HOST"
                (envconfig.mkFieldValue tString [0]) []]
             (envconfig.mkVarInfo "Mode" [] "APP_MODE"
                (envconfig.mkFieldValue tString [1])
                [("required", "maybe")])
             []
             (NumError (strconv.syntaxError "ParseBool" "maybe")));
    [reflexivity | reflexivity | reflexivity
     | repeat constructor; discriminate | discriminate | reflexivity].
Defined.

Lemma Usagef_prints_list_witness :
  envconfig.Usagef gatherFlat goTypes parseDefaults emptyWorld 3 "env_config"
    SpecWithURL "" envconfig.DefaultListFormat
  = Some (envconfig.mkResult emptyWorld SpecWithURL
            (listHeader
             ++ newline ++ "ENV_CONFIG_URLVALUE"
             ++ newline ++ "  [description] "
             ++ newline ++ "  [type]        URL"
             ++ newline ++ "  [default]     "
             ++ newline ++ "  [required]    "
             ++ newline ++ "ENV_CONFIG_URLPOINTER"
             ++ newline ++ "  [description] "
             ++ newline ++ "  [type]        URL"
             ++ newline ++ "  [default]     "
             ++ newline ++ "  [required]    "
             ++ newline)
            (envconfig.Returns None)).
Proof.
  rewrite (Usagef_prints_list GoRecord gatherFlat goTypes parseDefaults
             emptyWorld emptyWorld 3 "env_config" ""
             SpecWithURL SpecWithURL
             infosOfSpecWithURL);
    [reflexivity | reflexivity | reflexivity
     | exact infosOfSpecWithURL_render].
Defined.


(* ===================================================================== *)
(** * Rendering a scalar and coercing it back *)
(* ===================================================================== *)

(** The scalar shapes are the kinds that [toTypeDescription] names as
    scalars, and every shape is the shape of a kind. *)
Lemma shapeOf_scalarOf (k : reflect.Kind) :
  shapeOf k = None <-> scalarOf k = None.
Proof.
  destruct k; cbn; split; intros H; try reflexivity; discriminate H.
Qed.

Lemma shapeOf_onto (sh : ScalarShape) : exists k, shapeOf k = Some sh.
Proof.
  destruct sh as [| [] | [] | [] |].
  - exists reflect.Bool; reflexivity.
  - exists reflect.Int8; reflexivity.
  - exists reflect.Int16; reflexivity.
  - exists reflect.Int32; reflexivity.
  - exists reflect.Int64; reflexivity.
  - exists reflect.Int; reflexivity.
  - exists reflect.Uint8; reflexivity.
  - exists reflect.Uint16; reflexivity.
  - exists reflect.Uint32; reflexivity.
  - exists reflect.Uint64; reflexivity.
  - exists reflect.Uint; reflexivity.
  - exists reflect.Float32; reflexivity.
  - exists reflect.Float64; reflexivity.
  - exists reflect.String; reflexivity.
Qed.

(** ** Decimal digits *)







(** ** The parsers of [strconv] on what [strconv] prints *)





Example ParseInt_int8 :
  strconv.ParseInt "-128" 8 = ((-128)%Z, None)
  /\ strconv.ParseInt "+127" 8 = (127%Z, None)
  /\ strconv.ParseInt "128" 8
     = (127%Z, Some (strconv.rangeError "ParseInt" "128"))
  /\ strconv.ParseInt "-129" 8
     = ((-128)%Z, Some (strconv.rangeError "ParseInt" "-129"))
  /\ strconv.ParseInt "12a" 8
     = (0%Z, Some (strconv.syntaxError "ParseInt" "12a"))
  /\ strconv.ParseInt "-" 8
     = (0%Z, Some (strconv.syntaxError "ParseInt" "-")).
Proof. repeat split. Qed.

(** ** Go's [==] on floats *)




(** ** The round trip *)




Example coerce_rejects :
  coerce binaryFloatText 64 ShBool "yes"
  = inr (NumError (strconv.syntaxError "ParseBool" "yes"))
  /\ coerce binaryFloatText 64 (ShInt W8) "128"
     = inr (NumError (strconv.rangeError "ParseInt" "128"))
  /\ coerce binaryFloatText 64 (ShUint W8) "-1"
     = inr (NumError (strconv.syntaxError "ParseUint" "-1")).
Proof. repeat split. Qed.
